(** * Victus MC Store API: the product catalogue and the order builder

    A shallow embedding of [main.py]: the two store endpoints
    [get_products] and [create_order], the Python values they handle
    (JSON request values, binary64 floats, unbounded integers), and the
    document store they write to. *)

From Stdlib Require Import ZArith Floats.SpecFloat.
From stdpp Require Import gmap strings list fin_maps pretty.

Local Open Scope Z_scope.

(** ** Binary64 arithmetic

    Python's [float] is IEEE-754 binary64.  The operations are the ones of
    [SpecFloat] at precision 53 and maximal exponent 1024, rounding to
    nearest, ties to even. *)

Module F64.

Abbreviation float := spec_float.

Definition prec : Z := 53.
Definition emax : Z := 1024.

Definition zero : float := S754_zero false.
Definition add : float → float → float := SFadd prec emax.
Definition mul : float → float → float := SFmul prec emax.
Definition ltb : float → float → bool := SFltb.
Definition leb : float → float → bool := SFleb.
Definition valid : float → bool := valid_binary prec emax.

(** The float nearest to the integer [z]; an infinity when [z] is out of
  range. *)
Definition of_Z (z : Z) : float := binary_normalize prec emax z 0 false.

(** The float nearest to the rational [num / den], for [0 ≤ num] and
  [0 < den], with sign [s]: what a decimal literal denotes, and what
  converting a decimal string yields. *)
Definition nearest (s : bool) (num den : Z) : float :=
match num with
| Zpos _ =>
    let '(q, e, l) := SFdiv_core_binary prec emax num 0 den 0 in
    binary_round_aux prec emax s q e l
| _ => S754_zero s
end.

(** A decimal literal [digits · 10^-scale], such as [9.99 = dec 999 2]. *)
Definition dec (digits : Z) (scale : nat) : float :=
nearest (digits <? 0) (Z.abs digits) (10 ^ Z.of_nat scale).

(** Truncation toward zero of a finite float: the integer part of
  [± m · 2^e]. *)
Definition trunc (s : bool) (m : positive) (e : Z) : Z :=
let n := cond_Zopp s (Zpos m) in
if 0 <=? e then n * 2 ^ e else Z.quot n (2 ^ (- e)).

(** [num / den] rounded to the nearest integer, ties to the even one
  ([0 ≤ num], [0 < den]). *)
Definition round_half_even (num den : Z) : Z :=
let q := num / den in
let r := num mod den in
match 2 * r ?= den with
| Lt => q
| Gt => q + 1
| Eq => if Z.even q then q else q + 1
end.

End F64.

Import F64.

(** ** Python values *)

(** The values a request body or a stored document can hold: the JSON
    values, and the two store-side types [ObjectId] and [datetime], each
    carried by its string rendering. *)
#[warnings="-register-all"]
Inductive pyval :=
  | PNone
  | PBool (b : bool)
  | PInt (z : Z)
  | PFloat (f : float)
  | PStr (s : string)
  | PList (l : list pyval)
  | PDict (d : gmap string pyval)
  | PObjectId (hex : string)
  | PDatetime (iso : string).

Abbreviation dict := (gmap string pyval).

(** The exceptions the conversions raise. *)
Inductive exn := TypeError | ValueError | OverflowError.

Inductive res (A : Type) :=
  | Ret (a : A)
  | Raise (e : exn).
Arguments Ret {A} a.
Arguments Raise {A} e.

#[global] Instance res_ret : MRet res := @Ret.
#[global] Instance res_bind : MBind res := λ A B k x,
  match x with
  | Ret a => k a
  | Raise e => Raise e
  end.

(** The parts of the interpreter's builtins that are not spelled out
    here: parsing a string as an integer or as a float ([None] stands for
    the [ValueError] of a malformed literal), and the rendering of floats
    and containers by [str]. *)
Record Builtins := {
  int_of_str : string → option Z;
  float_of_str : string → option float;
  str_other : pyval → string;
}.

Section Conversions.
Variable B : Builtins.

(** [bool(v)]. *)
Definition py_truthy (v : pyval) : bool :=
  match v with
  | PNone => false
  | PBool b => b
  | PInt z => negb (z =? 0)
  | PFloat (S754_zero _) => false
  | PFloat _ => true
  | PStr s => negb (String.eqb s "")
  | PList l => negb (Nat.eqb (length l) 0)
  | PDict d => negb (Nat.eqb (size d) 0)
  | PObjectId _ | PDatetime _ => true
  end.

(** [a or b]. *)
Definition py_or (a b : pyval) : pyval := if py_truthy a then a else b.

(** [str(v)].  Integers of a request come out of the JSON decoder, so
    they are within the interpreter's limit for decimal rendering. *)
Definition py_str (v : pyval) : string :=
  match v with
  | PNone => "None"
  | PBool true => "True"
  | PBool false => "False"
  | PInt z => pretty z
  | PStr s => s
  | PObjectId hex => hex
  | PDatetime iso => iso
  | PFloat _ | PList _ | PDict _ => str_other B v
  end.

(** [int(v)]: floats are truncated toward zero. *)
Definition py_int (v : pyval) : res Z :=
  match v with
  | PBool b => Ret (if b then 1 else 0)
  | PInt z => Ret z
  | PFloat S754_nan => Raise ValueError
  | PFloat (S754_infinity _) => Raise OverflowError
  | PFloat (S754_zero _) => Ret 0
  | PFloat (S754_finite s m e) => Ret (trunc s m e)
  | PStr s =>
      match int_of_str B s with
      | Some z => Ret z
      | None => Raise ValueError
      end
  | PNone | PList _ | PDict _ | PObjectId _ | PDatetime _ => Raise TypeError
  end.

(** Conversion of an integer to a float, as arithmetic between the two
    does it: [OverflowError] when the integer is out of range. *)
Definition int_to_float (z : Z) : res float :=
  match of_Z z with
  | S754_infinity _ => Raise OverflowError
  | f => Ret f
  end.

(** [float(v)]. *)
Definition py_float (v : pyval) : res float :=
  match v with
  | PBool b => Ret (of_Z (if b then 1 else 0))
  | PInt z => int_to_float z
  | PFloat f => Ret f
  | PStr s =>
      match float_of_str B s with
      | Some f => Ret f
      | None => Raise ValueError
      end
  | PNone | PList _ | PDict _ | PObjectId _ | PDatetime _ => Raise TypeError
  end.

(** [q * p] for an integer [q] and a float [p]. *)
Definition int_mul_float (q : Z) (p : float) : res float :=
  fq ← int_to_float q; Ret (mul fq p).

End Conversions.

(** [round(x, ndigits)] for a float and [0 ≤ ndigits]: the float nearest
    to the decimal with [ndigits] fractional digits nearest to [x], ties
    to even at both steps.  Infinities, NaN and zeros round to
    themselves, and so does every float once [ndigits] exceeds 323. *)
Definition py_round (x : float) (ndigits : nat) : float :=
  match x with
  | S754_finite s m e =>
      if (323 <? ndigits)%nat then x
      else
        let p10 := 10 ^ Z.of_nat ndigits in
        let num := Zpos m * p10 * 2 ^ Z.max e 0 in
        let den := 2 ^ Z.max (- e) 0 in
        nearest s (round_half_even num den) p10
  | _ => x
  end.

(** ** The document store *)

(** A store failure, as [create_document] may raise it. *)
Inductive store_error := StoreError.

(** Modelled from the spec: the [database] module ([db],
    [create_document], [get_documents]) is not part of the sources.  The
    store is a set of named collections, each a sequence of documents in
    insertion order.  Inserting assigns the document an opaque identifier
    and a creation timestamp; an insertion may fail, and then stores
    nothing.  Which of the coming insertions fail is the environment's
    choice: [insert_failures] scripts it, one flag per insertion still to
    come, none meaning success. *)
Record store := {
  collections : gmap string (list dict);
  next_id : N;
  now : string;
  insert_failures : list bool;
}.

(** [db[name]], all its documents. *)
Definition collection (s : store) (name : string) : list dict :=
  default [] (collections s !! name).

(** [db[name].count_documents({})]. *)
Definition count_documents (s : store) (name : string) : Z :=
  Z.of_nat (length (collection s name)).

(** Modelled from the spec: [insert(collection, document) → id]. *)
Definition create_document (s : store) (name : string) (data : dict)
    : (store_error + string) * store :=
  match insert_failures s with
  | true :: rest =>
      (inl StoreError,
       {| collections := collections s; next_id := next_id s; now := now s;
          insert_failures := rest |})
  | _ =>
      let oid := pretty (next_id s) in
      let doc :=
        <["_id" := PObjectId oid]> (<["created_at" := PDatetime (now s)]> data) in
      (inr oid,
       {| collections := <[name := collection s name ++ [doc]]> (collections s);
          next_id := N.succ (next_id s); now := now s;
          insert_failures := tail (insert_failures s) |})
  end.

(** Modelled from the spec: [find(collection, filter, projection)] with the
    empty filter and no limit, the only way [main.py] calls it. *)
Definition get_documents (s : store) (name : string) : list dict :=
  collection s name.

(** ** Requests and responses *)

Record CreateOrderRequest := {
  items : list dict;
  buyer_email : option string;
  buyer_username : option string;
  note : option string;
}.

(** Modelled from the spec: the [schemas] module is not part of the
    sources.  An order has the fields of section 3 of the specification,
    and is stored as the document of these fields.  The specification
    describes no refusal by the schema, so building an order from lines
    that passed the loop is total. *)
Module OrderSchema.
Record t := {
  items : list dict;
  subtotal : float;
  buyer_email : option string;
  buyer_username : option string;
  note : option string;
}.

Definition opt_str (o : option string) : pyval := from_option PStr PNone o.

Definition model_dump (o : t) : dict :=
  <["items" := PList (PDict <$> items o)]>
  (<["subtotal" := PFloat (subtotal o)]>
  (<["buyer_email" := opt_str (buyer_email o)]>
  (<["buyer_username" := opt_str (buyer_username o)]>
  (<["note" := opt_str (note o)]> ∅)))).
End OrderSchema.

(** What an endpoint does: answer, raise an [HTTPException], or let an
    exception of the store escape. *)
Inductive response (A : Type) :=
  | Ok (body : A)
  | HTTPException (status_code : Z) (detail : string)
  | Uncaught (e : store_error).
Arguments Ok {A} body.
Arguments HTTPException {A} status_code detail.
Arguments Uncaught {A} e.

Record order_reply := { ok : bool; order_id : string }.

(** ** The product catalogue *)

Definition DEFAULT_PRODUCTS : list dict := [
  list_to_map [
    ("title", PStr "VIP Rank");
    ("description", PStr "Purple tag, daily crate, /fly, and more perks.");
    ("price", PFloat (dec 999 2));
    ("category", PStr "ranks");
    ("in_stock", PBool true);
    ("sku", PStr "RANK_VIP");
    ("image", PStr "https://i.imgur.com/7gW5a8W.png");
    ("badge", PStr "Popular") ];
  list_to_map [
    ("title", PStr "MVP Rank");
    ("description", PStr "All VIP perks plus extra kits and boosters.");
    ("price", PFloat (dec 1999 2));
    ("category", PStr "ranks");
    ("in_stock", PBool true);
    ("sku", PStr "RANK_MVP");
    ("image", PStr "https://i.imgur.com/3wM3q6B.png");
    ("badge", PStr "Best Value") ];
  list_to_map [
    ("title", PStr "Legend Rank");
    ("description", PStr "Ultimate status, cosmetics, and exclusive features.");
    ("price", PFloat (dec 3999 2));
    ("category", PStr "ranks");
    ("in_stock", PBool true);
    ("sku", PStr "RANK_LEGEND");
    ("image", PStr "https://i.imgur.com/8F9mTnE.png");
    ("badge", PStr "Premium") ];
  list_to_map [
    ("title", PStr "Keys Bundle");
    ("description", PStr "10x Galaxy Crate Keys.");
    ("price", PFloat (dec 799 2));
    ("category", PStr "keys");
    ("in_stock", PBool true);
    ("sku", PStr "KEYS_GALAXY_10");
    ("image", PStr "https://i.imgur.com/0kCqf3L.png");
    ("badge", PNone) ]
].

Definition COLLECTION_PRODUCTS : string := "product".
Definition COLLECTION_ORDERS : string := "order".

Section Endpoints.
Variable B : Builtins.

(** The seeding loop: each default product is inserted, and a failed
    insertion is passed over. *)
Definition seed_products (s : store) : store :=
  foldl (λ s p, (create_document s COLLECTION_PRODUCTS p).2) s DEFAULT_PRODUCTS.

(** [if key in p: p[key] = str(p[key])]. *)
Definition stringify (key : string) (p : dict) : dict :=
  match p !! key with
  | Some v => <[key := PStr (py_str B v)]> p
  | None => p
  end.

(** The body of the loop over the products read back. *)
Definition public_product (p : dict) : dict :=
  let p :=
    match p !! "_id" with
    | Some v => <["id" := PStr (py_str B v)]> (delete "_id" p)
    | None => p
    end in
  stringify "updated_at" (stringify "created_at" p).

Definition get_products (db : option store)
    : response (list dict) * option store :=
  match db with
  | None => (HTTPException 500 "Database not configured", db)
  | Some s =>
      let count := count_documents s COLLECTION_PRODUCTS in
      let s := if count =? 0 then seed_products s else s in
      let products := get_documents s COLLECTION_PRODUCTS in
      (Ok (public_product <$> products), Some s)
  end.

(** ** The order builder *)

(** [item.get(key, default)]. *)
Definition get (item : dict) (key : string) (dflt : pyval) : pyval :=
  default dflt (item !! key).

(** The body of the [try] for one raw item: [Ret None] is the
    [continue] of the range check, [Ret (Some (line, amount))] the
    stored line and the amount added to the subtotal. *)
Definition line_item (item : dict) : res (option (dict * float)) :=
  qty ← py_int B (get item "quantity" (PInt 1));
  price ← py_float B (get item "price" PNone);
  let title := py_or (get item "title" PNone) (PStr "Item") in
  let product_id := py_str B (py_or (get item "product_id" PNone) (PStr "")) in
  if (qty <=? 0) || ltb price (of_Z 0) then Ret None
  else
    amount ← int_mul_float qty price;
    Ret (Some (list_to_map [
                 ("product_id", PStr product_id);
                 ("quantity", PInt qty);
                 ("price", PFloat price);
                 ("title", title) ],
               amount)).

(** An item is accepted when the body reaches the [append]; the
    [except] clause turns every exception into a [continue]. *)
Definition accepted (item : dict) : option (dict * float) :=
  match line_item item with
  | Ret (Some la) => Some la
  | Ret None | Raise _ => None
  end.

(** One turn of the loop, on the pair of [items] and [subtotal]. *)
Definition order_step (st : list dict * float) (item : dict)
    : list dict * float :=
  match accepted item with
  | Some (line, amount) => (st.1 ++ [line], add st.2 amount)
  | None => st
  end.

Definition create_order (db : option store) (payload : CreateOrderRequest)
    : response order_reply * option store :=
  match db with
  | None => (HTTPException 500 "Database not configured", db)
  | Some s =>
      match items payload with
      | [] => (HTTPException 400 "No items in order", db)
      | _ =>
          let '(its, subtotal) := foldl order_step ([], zero) (items payload) in
          if (length its =? 0)%nat then (HTTPException 400 "Invalid items", db)
          else
            let order_doc :=
              {| OrderSchema.items := its;
                 OrderSchema.subtotal := py_round subtotal 2;
                 OrderSchema.buyer_email := buyer_email payload;
                 OrderSchema.buyer_username := buyer_username payload;
                 OrderSchema.note := note payload |} in
            match create_document s COLLECTION_ORDERS
                    (OrderSchema.model_dump order_doc) with
            | (inr oid, s') => (Ok {| ok := true; order_id := oid |}, Some s')
            | (inl e, s') => (Uncaught e, Some s')
            end
      end
  end.

End Endpoints.

(** ** The diagnostic endpoint *)

(** What reading [db.name] does: the attribute is missing, holds a name,
    or raises with a message. *)
Inductive attribute :=
  | Missing
  | Holds (value : string)
  | Fails (message : string).

(** The parts of the driver and of the interpreter that [test_database]
    leans on: reading [db.name], listing the collections ([inl] is the
    message of the exception raised), and the slice [s[:n]] of a
    string. *)
Record Runtime := {
  db_name : store → attribute;
  list_collection_names : store → string + list string;
  str_prefix : nat → string → string;
}.

Section Diagnostics.
Variable R : Runtime.

(** ["✅ Set" if os.getenv(key) else "❌ Not Set"] *)
Definition env_status (environ : gmap string string) (key : string) : pyval :=
  if py_truthy (from_option PStr PNone (environ !! key))
  then PStr "✅ Set" else PStr "❌ Not Set".

Definition test_database (db : option store) (environ : gmap string string)
    : dict :=
  let response : dict := list_to_map [
    ("backend", PStr "✅ Running");
    ("database", PStr "❌ Not Available");
    ("database_url", PNone);
    ("database_name", PNone);
    ("connection_status", PStr "Not Connected");
    ("collections", PList []) ] in
  let response :=
    match db with
    | Some d =>
        let response := <["database" := PStr "✅ Available"]> response in
        let response := <["database_url" := PStr "✅ Configured"]> response in
        match db_name R d with
        | Fails message =>
            <["database" := PStr ("❌ Error: " +:+ str_prefix R 50 message)]> response
        | attr =>
            let response :=
              <["database_name" :=
                  PStr match attr with Holds value => value | _ => "✅ Connected" end]>
                response in
            let response := <["connection_status" := PStr "Connected"]> response in
            match list_collection_names R d with
            | inr collections =>
                let response :=
                  <["collections" := PList (PStr <$> take 10 collections)]>
                    response in
                <["database" := PStr "✅ Connected & Working"]> response
            | inl message =>
                <["database" :=
                    PStr ("⚠️  Connected but Error: " +:+ str_prefix R 50 message)]> response
            end
        end
    | None => <["database" := PStr "⚠️  Available but not initialized"]> response
    end in
  let response := <["database_url" := env_status environ "DATABASE_URL"]> response in
  <["database_name" := env_status environ "DATABASE_NAME"]> response.

End Diagnostics.

(** ** An instance of the builtins

    For running the model on concrete requests: the plain ASCII decimal
    literals, that is optional blanks around an optional sign and digits,
    with an optional fraction and exponent for floats.  The interpreter
    accepts more literals than these, and renders floats and containers
    in its own way; the instance renders them by a mark.  The statements
    about the endpoints hold for every [Builtins]. *)
Module Literals.
Import Stdlib.Strings.Ascii.

Definition is_blank (c : Ascii.ascii) : bool :=
  let n := Ascii.nat_of_ascii c in
  ((9 <=? n) && (n <=? 13) || (28 <=? n) && (n <=? 32))%nat.

Definition digit (c : Ascii.ascii) : option Z :=
  let n := Z.of_nat (Ascii.nat_of_ascii c) in
  if (48 <=? n) && (n <=? 57) then Some (n - 48) else None.

(** The leading digits of [l]: their value on top of [acc], how many
    they are, and what follows them. *)
Fixpoint digits (acc : Z) (n : nat) (l : list Ascii.ascii) : Z * nat * list Ascii.ascii :=
  match l with
  | c :: r =>
      match digit c with
      | Some d => digits (10 * acc + d) (S n) r
      | None => (acc, n, l)
      end
  | [] => (acc, n, l)
  end.

Fixpoint drop_blanks (l : list Ascii.ascii) : list Ascii.ascii :=
  match l with
  | c :: r => if is_blank c then drop_blanks r else l
  | [] => []
  end.

Definition strip (s : string) : list Ascii.ascii :=
  reverse (drop_blanks (reverse (drop_blanks (String.list_ascii_of_string s)))).

Definition sign (l : list Ascii.ascii) : bool * list Ascii.ascii :=
  match l with
  | "-"%char :: r => (true, r)
  | "+"%char :: r => (false, r)
  | _ => (false, l)
  end.

Definition parse_int (s : string) : option Z :=
  let '(neg, l) := sign (strip s) in
  match digits 0 0 l with
  | (z, S _, []) => Some (cond_Zopp neg z)
  | _ => None
  end.

(** [± m · 10^k], rounded once. *)
Definition scale (neg : bool) (m k : Z) : float :=
  if 0 <=? k then nearest neg (m * 10 ^ k) 1 else nearest neg m (10 ^ (- k)).

Definition parse_float (s : string) : option float :=
  let '(neg, l) := sign (strip s) in
  let '(ip, ni, l) := digits 0 0 l in
  let '(m, nf, l) :=
    match l with
    | "."%char :: r => digits ip 0 r
    | _ => (ip, 0%nat, l)
    end in
  if (ni + nf =? 0)%nat then None
  else
    match l with
    | [] => Some (scale neg m (- Z.of_nat nf))
    | c :: r =>
        if Ascii.eqb c "e" || Ascii.eqb c "E" then
          let '(eneg, r) := sign r in
          match digits 0 0 r with
          | (ex, S _, []) => Some (scale neg m (cond_Zopp eneg ex - Z.of_nat nf))
          | _ => None
          end
        else None
    end.

Definition builtins : Builtins := {|
  int_of_str := parse_int;
  float_of_str := parse_float;
  str_other := λ _, "<object>"%string;
|}.
End Literals.

(** * Notions of the statements *)

(** ** The store *)

(** The document as the store keeps it. *)
Definition stamped (s : store) (data : dict) : dict :=
  <["_id" := PObjectId (pretty (next_id s))]>
    (<["created_at" := PDatetime (now s)]> data).

(** The next insertion is not scripted to fail. *)
Definition insert_succeeds (s : store) : Prop :=
  head (insert_failures s) ≠ Some true.

(** None of the next [n] insertions is scripted to fail. *)
Definition insertions_succeed (n : nat) (s : store) : Prop :=
  ∀ i, (i < n)%nat → insert_failures s !! i ≠ Some true.

(** The [i]-th document inserted from state [s] on, all insertions
    succeeding. *)
Definition stamped_nth (s : store) (i : nat) (data : dict) : dict :=
  <["_id" := PObjectId (pretty (next_id s + N.of_nat i)%N)]>
    (<["created_at" := PDatetime (now s)]> data).

(** ** Orders *)

Definition float_sum (l : list float) : float := foldl add zero l.

(** Its quantity is within the range of binary64. *)
Definition in_float_range (q : Z) : Prop :=
  int_to_float q ≠ Raise OverflowError.

(** The request with another list of items. *)
Definition with_items (payload : CreateOrderRequest) (l : list dict)
    : CreateOrderRequest :=
  {| items := l;
     buyer_email := buyer_email payload;
     buyer_username := buyer_username payload;
     note := note payload |}.

Section Notions.
Variable B : Builtins.

(** The quantity and the price the loop reads from a raw item. *)
Definition quantity_of (item : dict) : res Z :=
  py_int B (get item "quantity" (PInt 1)).
Definition price_of (item : dict) : res float :=
  py_float B (get item "price" PNone).

(** The line stored for an accepted item of quantity [q] and price [p]. *)
Definition line_of (item : dict) (q : Z) (p : float) : dict :=
  list_to_map [
    ("product_id", PStr (py_str B (py_or (get item "product_id" PNone) (PStr ""))));
    ("quantity", PInt q);
    ("price", PFloat p);
    ("title", py_or (get item "title" PNone) (PStr "Item")) ].

(** The line stored for a raw item, if it is accepted. *)
Definition stored_line (item : dict) : option dict := fst <$> accepted B item.

(** The order built from the accepted lines. *)
Definition order_of (payload : CreateOrderRequest) (acc : list (dict * float))
    : OrderSchema.t :=
  {| OrderSchema.items := acc.*1;
     OrderSchema.subtotal := py_round (float_sum acc.*2) 2;
     OrderSchema.buyer_email := buyer_email payload;
     OrderSchema.buyer_username := buyer_username payload;
     OrderSchema.note := note payload |}.

(** A raw item with an integer quantity above zero and a price that
    parses and is not below zero. *)
Definition priced (item : dict) (q : Z) (p : float) : Prop :=
  quantity_of item = Ret q ∧ 0 < q ∧
  price_of item = Ret p ∧ leb (of_Z 0) p = true.

(** A raw item whose quantity is zero or negative, whose price is
    negative, whose price is absent or does not parse, or whose quantity
    does not parse. *)
Definition unusable (item : dict) : Prop :=
  (∃ q, quantity_of item = Ret q ∧ q ≤ 0) ∨
  (∃ p, price_of item = Ret p ∧ ltb p (of_Z 0) = true) ∨
  item !! "price" = None ∨
  (∃ e, price_of item = Raise e) ∨
  (∃ e, quantity_of item = Raise e).

End Notions.

(** ** Sample data *)

Module Sample.
Definition fresh_store : store := {|
  collections := ∅;
  next_id := 0;
  now := "2024-01-01 00:00:00";
  insert_failures := [];
|}.

Definition request (l : list dict) : CreateOrderRequest :=
  {| items := l; buyer_email := None; buyer_username := None; note := None |}.

(** [{quantity: 2, price: 9.99}] *)
Definition two_vip : dict :=
  list_to_map [("quantity", PInt 2); ("price", PFloat (dec 999 2))].

(** [{quantity: -1, price: 5}] *)
Definition negative_quantity : dict :=
  list_to_map [("quantity", PInt (-1)); ("price", PInt 5)].

(** [{quantity: 10**400, price: 1.0}] *)
Definition huge_quantity : dict :=
  list_to_map [("quantity", PInt (10 ^ 400)); ("price", PFloat (of_Z 1))].

(** [{price: 5.0}] *)
Definition no_quantity : dict := list_to_map [("price", PFloat (of_Z 5))].

(** [{product_id: 0, price: 1.0}] *)
Definition product_zero : dict :=
  list_to_map [("product_id", PInt 0); ("price", PFloat (of_Z 1))].

(** [{quantity: 2.9, price: 1.0}] *)
Definition fractional_quantity : dict :=
  list_to_map [("quantity", PFloat (dec 29 1)); ("price", PFloat (of_Z 1))].

(** A store with no product whose first insertion to come fails. *)
Definition failing_store : store := {|
  collections := ∅;
  next_id := 0;
  now := "2024-01-01 00:00:00";
  insert_failures := [true];
|}.

(** The store after a seeding. *)
Definition seeded_store : store := seed_products fresh_store.
End Sample.

(** ** Further notions *)

(** Not below zero: a zero of either sign, a positive float, the positive
    infinity, or NaN. *)
Definition not_negative (x : float) : Prop := ltb x zero = false.

(** A line as the loop stores it. *)
Definition well_formed_line (line : dict) : Prop :=
  ∃ q p pid title,
    line !! "quantity" = Some (PInt q) ∧ 1 ≤ q ∧
    line !! "price" = Some (PFloat p) ∧ not_negative p ∧
    line !! "product_id" = Some (PStr pid) ∧
    line !! "title" = Some title ∧ py_truthy title = true.

(** The elements of [l] whose insertion the script lets through. *)
Fixpoint survivors {A} (l : list A) (failures : list bool) : list A :=
  match l with
  | [] => []
  | x :: l' =>
      match failures with
      | true :: rest => survivors l' rest
      | false :: rest => x :: survivors l' rest
      | [] => x :: l'
      end
  end.

(** A stored document without what the store added. *)
Definition unstamped (d : dict) : dict := delete "_id" (delete "created_at" d).

(** The variable is set, to a string that is not empty. *)
Definition env_set (environ : gmap string string) (key : string) : bool :=
  match environ !! key with
  | Some v => negb (String.eqb v "")
  | None => false
  end.

(** [db.name] can be read. *)
Definition name_readable (R : Runtime) (d : store) : Prop :=
  ∀ message, db_name R d ≠ Fails message.

(** The amount of a stored line, read back from its quantity and its
    price. *)
Definition line_amount (line : dict) : option float :=
  match line !! "quantity", line !! "price" with
  | Some (PInt q), Some (PFloat p) => Some (mul (of_Z q) p)
  | _, _ => None
  end.

(** More sample data. *)
Module Sample2.
(** A request with a buyer and no note. *)
Definition signed_request : CreateOrderRequest :=
  {| items := [Sample.two_vip];
     buyer_email := Some "steve@example.com";
     buyer_username := Some "Steve";
     note := None |}.

(** [{price: NaN}] *)
Definition nan_price : dict := list_to_map [("price", PFloat S754_nan)].
End Sample2.

(** * Properties *)

(** ** The arithmetic on examples *)

Example dec_9_99 : dec 999 2 = S754_finite false 5623870034678907 (-49).
Proof. reflexivity. Qed.

(** 0.125 is a float, and a tie between 0.12 and 0.13. *)
Example py_round_tie_to_even : py_round (dec 125 3) 2 = dec 12 2.
Proof. vm_compute. reflexivity. Qed.

(** The float of 2.675 is below the tie. *)
Example py_round_2_675 : py_round (dec 2675 3) 2 = dec 267 2.
Proof. vm_compute. reflexivity. Qed.

Example py_round_negative_zero : py_round (dec (-1) 3) 2 = S754_zero true.
Proof. vm_compute. reflexivity. Qed.

(** The integers that convert to a float end at [2^1024 - 2^970]. *)
Example int_to_float_largest :
  int_to_float (2 ^ 1024 - 2 ^ 970 - 1)
    = Ret (S754_finite false 9007199254740991 971).
Proof. vm_compute. reflexivity. Qed.

Example int_to_float_overflow :
  int_to_float (2 ^ 1024 - 2 ^ 970) = Raise OverflowError.
Proof. vm_compute. reflexivity. Qed.

Example parse_float_9_99 : Literals.parse_float " 9.99" = Some (dec 999 2).
Proof. vm_compute. reflexivity. Qed.

Example parse_int_fraction : Literals.parse_int "2.9" = None.
Proof. vm_compute. reflexivity. Qed.

(** ** The store *)

Lemma create_document_inr s name data :
  insert_succeeds s →
  ∃ s', create_document s name data = (inr (pretty (next_id s)), s') ∧
    collection s' name = collection s name ++ [stamped s data] ∧
    (∀ other, other ≠ name → collection s' other = collection s other) ∧
    next_id s' = N.succ (next_id s) ∧
    now s' = now s ∧
    insert_failures s' = tail (insert_failures s).
Proof.
  intros Hok. unfold create_document, insert_succeeds in *.
  destruct (insert_failures s) as [|[] rest] eqn:Hf; simpl in Hok; try done;
    (eexists; split; [reflexivity|]; unfold collection; simpl;
     rewrite lookup_insert_eq; repeat split; try done;
     intros other Hne; by rewrite lookup_insert_ne).
Qed.

Lemma create_document_inl s name data e s' :
  create_document s name data = (inl e, s') →
  collections s' = collections s.
Proof.
  unfold create_document.
  destruct (insert_failures s) as [|[] rest]; intros [= <-]; done.
Qed.

(** ** The loop of the order builder *)

Section OrderLoop.
Variable B : Builtins.

Lemma order_loop (l : list dict) (st : list dict * float) :
  foldl (order_step B) st l =
    (st.1 ++ (omap (accepted B) l).*1,
     foldl add st.2 (omap (accepted B) l).*2).
Proof.
  revert st. induction l as [|item l IH]; intros [its sub]; simpl.
  - by rewrite app_nil_r.
  - rewrite IH. unfold order_step.
    destruct (accepted B item) as [[line amount]|]; simpl; [|done].
    by rewrite <- app_assoc.
Qed.

Lemma create_order_nil s payload :
  items payload = [] →
  create_order B (Some s) payload
    = (HTTPException 400 "No items in order", Some s).
Proof. intros Hnil. unfold create_order. by rewrite Hnil. Qed.

Lemma create_order_unfold s payload :
  items payload ≠ [] →
  create_order B (Some s) payload =
    match omap (accepted B) (items payload) with
    | [] => (HTTPException 400 "Invalid items", Some s)
    | acc =>
        match create_document s COLLECTION_ORDERS
                (OrderSchema.model_dump (order_of payload acc)) with
        | (inr oid, s') => (Ok {| ok := true; order_id := oid |}, Some s')
        | (inl e, s') => (Uncaught e, Some s')
        end
    end.
Proof.
  intros Hne. unfold create_order.
  destruct (items payload) as [|item l] eqn:Hitems; [done|].
  rewrite order_loop. cbn [fst snd app].
  destruct (omap (accepted B) (item :: l)) as [|a acc]; done.
Qed.

End OrderLoop.

(** ** Acceptance of one raw item *)

Section Acceptance.
Variable B : Builtins.

Lemma int_to_float_Ret q fq : int_to_float q = Ret fq → fq = of_Z q.
Proof. unfold int_to_float. destruct (of_Z q); congruence. Qed.

Lemma int_to_float_no_overflow q :
  int_to_float q ≠ Raise OverflowError → int_to_float q = Ret (of_Z q).
Proof. unfold int_to_float. destruct (of_Z q); congruence. Qed.

Lemma accepted_intro item q p :
  quantity_of B item = Ret q → 0 < q →
  price_of B item = Ret p → ltb p (of_Z 0) = false →
  int_to_float q ≠ Raise OverflowError →
  accepted B item = Some (line_of B item q p, mul (of_Z q) p).
Proof.
  unfold quantity_of, price_of, accepted, line_item.
  intros -> Hq -> Hp Hfq%int_to_float_no_overflow. cbn [mbind res_bind].
  rewrite Hp, orb_false_r.
  destruct (Z.leb_spec q 0); [lia|].
  unfold int_mul_float. rewrite Hfq. done.
Qed.

Lemma accepted_inv item line amount :
  accepted B item = Some (line, amount) →
  ∃ q p, quantity_of B item = Ret q ∧ 0 < q ∧
    price_of B item = Ret p ∧ ltb p (of_Z 0) = false ∧
    int_to_float q = Ret (of_Z q) ∧
    line = line_of B item q p ∧ amount = mul (of_Z q) p.
Proof.
  unfold quantity_of, price_of, accepted, line_item.
  destruct (py_int B _) as [q|]; cbn [mbind res_bind]; [|done].
  destruct (py_float B _) as [p|]; cbn [mbind res_bind]; [|done].
  destruct (Z.leb_spec q 0); cbn [orb]; [done|].
  destruct (ltb p (of_Z 0)) eqn:Hp; [done|].
  unfold int_mul_float.
  destruct (int_to_float q) as [fq|] eqn:Hfq; cbn [mbind res_bind]; [|done].
  intros [= <- <-]. pose proof (int_to_float_Ret _ _ Hfq) as ->.
  exists q, p. done.
Qed.

Lemma leb_zero_not_negative p : leb (of_Z 0) p = true → ltb p (of_Z 0) = false.
Proof. by destruct p as [[]|[]| |[]]. Qed.

End Acceptance.

(** ** The subtotal of an order *)

Section Subtotal.
Variable B : Builtins.

Lemma omap_accepted_priced (l : list dict) (qps : list (Z * float)) :
  Forall2 (λ item qp, priced B item qp.1 qp.2 ∧ in_float_range qp.1) l qps →
  (omap (accepted B) l).*2 = (λ qp, mul (of_Z qp.1) qp.2) <$> qps ∧
  length (omap (accepted B) l) = length l.
Proof.
  induction 1 as [|item [q p] l qps [(Hq & Hpos & Hp & Hge) Hfit] _ [IH1 IH2]];
    [done|].
  simpl in *.
  rewrite (accepted_intro B item q p) by auto using leb_zero_not_negative.
  simpl. split; f_equal; [exact IH1|exact IH2].
Qed.

Lemma stored_subtotal s (o : OrderSchema.t) :
  stamped s (OrderSchema.model_dump o) !! "subtotal"
    = Some (PFloat (OrderSchema.subtotal o)).
Proof.
  unfold stamped, OrderSchema.model_dump.
  rewrite !lookup_insert_ne by done. apply lookup_insert_eq.
Qed.

(** C1, as amended: for every order request whose items list is
    non-empty and in which every item has an integer quantity above
    zero that converts to a binary64 float and a parsable price not
    below zero, and when the store takes the insertion, [create_order]
    succeeds and the subtotal of the persisted order is
    [round(sum of quantity * price, 2)], the sum taken from left to right
    in binary64 and the rounding being ties-to-even. *)
Theorem create_order_subtotal s payload (qps : list (Z * float)) :
  items payload ≠ [] →
  Forall2 (λ item qp, priced B item qp.1 qp.2 ∧ in_float_range qp.1)
    (items payload) qps →
  insert_succeeds s →
  ∃ s' doc,
    create_order B (Some s) payload
      = (Ok {| ok := true; order_id := pretty (next_id s) |}, Some s') ∧
    collection s' COLLECTION_ORDERS = collection s COLLECTION_ORDERS ++ [doc] ∧
    doc !! "subtotal"
      = Some (PFloat (py_round
                (float_sum ((λ qp, mul (of_Z qp.1) qp.2) <$> qps)) 2)).
Proof.
  intros Hne Hall Hstore.
  destruct (omap_accepted_priced _ _ Hall) as [Hsum Hlen].
  rewrite create_order_unfold by done.
  destruct (omap (accepted B) (items payload)) as [|a acc] eqn:Hacc.
  { destruct (items payload); simpl in Hlen; [done|lia]. }
  destruct (create_document_inr s COLLECTION_ORDERS
              (OrderSchema.model_dump (order_of payload (a :: acc))) Hstore)
    as (s' & -> & Hcoll & _).
  exists s', (stamped s (OrderSchema.model_dump (order_of payload (a :: acc)))).
  split; [done|]. split; [done|].
  rewrite stored_subtotal. simpl. by rewrite <- Hsum.
Qed.

End Subtotal.

(** The request [{items: [{quantity: 2, price: 9.99}]}] is stored with
    subtotal 19.98. *)
Lemma create_order_subtotal_witness :
  ∃ s' doc,
    create_order Literals.builtins (Some Sample.fresh_store)
        (Sample.request [Sample.two_vip])
      = (Ok {| ok := true; order_id := "0" |}, Some s') ∧
    collection s' COLLECTION_ORDERS = [doc] ∧
    doc !! "subtotal" = Some (PFloat (dec 1998 2)).
Proof.
  destruct (create_order_subtotal Literals.builtins Sample.fresh_store
              (Sample.request [Sample.two_vip]) [(2, dec 999 2)])
    as (s' & doc & H1 & H2 & H3).
  - done.
  - repeat constructor; vm_compute; congruence.
  - vm_compute. congruence.
  - exists s', doc. split; [exact H1|]. split; [exact H2|]. exact H3.
Defined.

(** C1, as stated, fails: an item whose quantity is the integer
    [10**400] and whose price is [1.0] is dropped, the product of the two
    being out of the range of floats, and the request is refused. *)
Lemma create_order_huge_quantity :
  priced Literals.builtins Sample.huge_quantity (10 ^ 400) (of_Z 1) ∧
  Sample.huge_quantity !! "quantity" = Some (PInt (10 ^ 400)) ∧
  create_order Literals.builtins (Some Sample.fresh_store)
      (Sample.request [Sample.huge_quantity])
    = (HTTPException 400 "Invalid items", Some Sample.fresh_store).
Proof.
  split; [|split].
  - repeat split; vm_compute; reflexivity.
  - vm_compute. reflexivity.
  - vm_compute. reflexivity.
Qed.

(** ** Items that are dropped *)

Section Dropped.
Variable B : Builtins.

Lemma absent_price_raises item :
  item !! "price" = None → price_of B item = Raise TypeError.
Proof. unfold price_of, get. by intros ->. Qed.

Lemma unusable_rejected item : unusable B item → accepted B item = None.
Proof.
  unfold accepted, line_item.
  fold (quantity_of B item). fold (price_of B item).
  intros [(q & -> & Hq)|[(p & Hp & Hneg)|[Habs|[[e He]|[e ->]]]]];
    cbn [mbind res_bind]; [| | | |done].
  - destruct (price_of B item) as [p|]; cbn [mbind res_bind]; [|done].
    destruct (Z.leb_spec q 0); [done|lia].
  - destruct (quantity_of B item) as [q|]; cbn [mbind res_bind]; [|done].
    rewrite Hp. cbn [mbind res_bind]. by rewrite Hneg, orb_true_r.
  - rewrite (absent_price_raises _ Habs).
    by destruct (quantity_of B item).
  - rewrite He. by destruct (quantity_of B item).
Qed.

Lemma omap_accepted_without l1 item l2 :
  accepted B item = None →
  omap (accepted B) (l1 ++ item :: l2) = omap (accepted B) (l1 ++ l2).
Proof. intros Hrej. rewrite !omap_app. simpl. by rewrite Hrej. Qed.

(** C2, as amended: a raw item with quantity zero, a negative quantity,
    a negative price, an absent or unparsable price, or an unparsable
    quantity is excluded from the persisted order and adds nothing to
    its subtotal, and raises no error by itself: the loop ends in the
    same state, and the request has the same outcome, as without the
    item.  (An absent quantity stands for 1 and excludes nothing.) *)
Theorem unusable_item_dropped db payload l1 item l2 :
  unusable B item →
  items payload = l1 ++ item :: l2 →
  accepted B item = None ∧
  (∀ st, foldl (order_step B) st (items payload)
           = foldl (order_step B) st (l1 ++ l2)) ∧
  (l1 ++ l2 ≠ [] →
   create_order B db payload = create_order B db (with_items payload (l1 ++ l2))).
Proof.
  intros Hrej%unusable_rejected Hitems. split; [done|]. split.
  - intros st. rewrite !order_loop, Hitems.
    by rewrite omap_accepted_without.
  - intros Hne. destruct db as [s|]; [|done].
    rewrite !create_order_unfold; simpl; rewrite ?Hitems;
      [|done|by destruct l1].
    by rewrite omap_accepted_without.
Qed.

End Dropped.

(** In the request [[{quantity: -1, price: 5}, {quantity: 2, price: 9.99}]]
    the first item is dropped. *)
Lemma unusable_item_dropped_witness :
  accepted Literals.builtins Sample.negative_quantity = None ∧
  create_order Literals.builtins (Some Sample.fresh_store)
      (Sample.request [Sample.negative_quantity; Sample.two_vip])
    = create_order Literals.builtins (Some Sample.fresh_store)
        (Sample.request [Sample.two_vip]).
Proof.
  destruct (unusable_item_dropped Literals.builtins (Some Sample.fresh_store)
              (Sample.request [Sample.negative_quantity; Sample.two_vip])
              [] Sample.negative_quantity [Sample.two_vip])
    as (H1 & _ & H3).
  - left. exists (-1). split; [vm_compute; reflexivity|lia].
  - reflexivity.
  - split; [exact H1|]. apply H3. discriminate.
Defined.

(** C2, as stated, fails for an absent quantity: the item [{price: 5.0}]
    is accepted with quantity 1, and the order is stored with this line
    and subtotal 5.0. *)
Lemma create_order_no_quantity :
  Sample.no_quantity !! "quantity" = None ∧
  accepted Literals.builtins Sample.no_quantity
    = Some (list_to_map [("product_id", PStr ""); ("quantity", PInt 1);
                         ("price", PFloat (of_Z 5)); ("title", PStr "Item")],
            of_Z 5) ∧
  ∃ s', create_order Literals.builtins (Some Sample.fresh_store)
            (Sample.request [Sample.no_quantity])
          = (Ok {| ok := true; order_id := "0" |}, Some s') ∧
    (λ doc, (doc !! "items", doc !! "subtotal")) <$> collection s' COLLECTION_ORDERS
      = [(Some (PList [PDict (list_to_map
                  [("product_id", PStr ""); ("quantity", PInt 1);
                   ("price", PFloat (of_Z 5)); ("title", PStr "Item")])]),
          Some (PFloat (of_Z 5)))].
Proof.
  split; [vm_compute; reflexivity|]. split; [vm_compute; reflexivity|].
  eexists. split; [vm_compute; reflexivity|vm_compute; reflexivity].
Qed.

(** ** Refused requests *)

Section Refused.
Variable B : Builtins.

Lemma omap_all_rejected (l : list dict) :
  Forall (λ item, accepted B item = None) l → omap (accepted B) l = [].
Proof. induction 1 as [|item l Hrej _ IH]; simpl; [done|]. by rewrite Hrej. Qed.

(** C3: a request with a non-empty items list in which every item is
    rejected is refused with status 400 and detail "Invalid items", which
    is not the detail of the empty list, and the store is as it was. *)
Theorem create_order_invalid_items s payload :
  items payload ≠ [] →
  Forall (λ item, accepted B item = None) (items payload) →
  create_order B (Some s) payload
    = (HTTPException 400 "Invalid items", Some s) ∧
  "Invalid items" ≠ "No items in order".
Proof.
  intros Hne Hall. split; [|done].
  rewrite create_order_unfold by done.
  by rewrite omap_all_rejected.
Qed.

(** C4: a request with an empty items list is refused with status 400
    and detail "No items in order", whatever the item validation would
    do, and the store is as it was. *)
Theorem create_order_no_items s payload :
  items payload = [] →
  create_order B (Some s) payload
    = (HTTPException 400 "No items in order", Some s).
Proof. apply create_order_nil. Qed.

(** C8: when [create_order] raises an [HTTPException], it is one of
    the three of the source (500 for a missing store, 400 for no items,
    400 for invalid items) and the store, with its order collection, is
    exactly as before the request. *)
Theorem create_order_error_writes_nothing db payload status detail db' :
  create_order B db payload = (HTTPException status detail, db') →
  db' = db ∧
  ((status, detail) = (500, "Database not configured") ∧ db = None ∨
   (status, detail) = (400, "No items in order") ∧ items payload = [] ∨
   (status, detail) = (400, "Invalid items") ∧ items payload ≠ [] ∧
     Forall (λ item, accepted B item = None) (items payload)).
Proof.
  destruct db as [s|]; [|intros [= <- <- <-]; auto].
  destruct (items payload) as [|item l] eqn:Hitems.
  { rewrite create_order_nil by done. intros [= <- <- <-]. auto. }
  rewrite create_order_unfold by (by rewrite Hitems).
  rewrite Hitems.
  destruct (omap (accepted B) (item :: l)) as [|a acc] eqn:Hacc.
  - intros [= <- <- <-]. split; [done|]. right; right.
    split; [done|]. split; [done|].
    apply Forall_forall. intros x Hx.
    destruct (accepted B x) as [la|] eqn:Hla; [|done].
    assert (la ∈ omap (accepted B) (item :: l)) as Hin
      by (apply list_elem_of_omap; eauto).
    rewrite Hacc in Hin. by apply elem_of_nil in Hin.
  - destruct (create_document _ _ _) as [[e|oid] s']; done.
Qed.

(** When the store fails on the insertion, the exception escapes and the
    collections are as before. *)
Lemma create_order_uncaught db payload e db' :
  create_order B db payload = (Uncaught e, db') →
  ∃ s s', db = Some s ∧ db' = Some s' ∧ collections s' = collections s.
Proof.
  destruct db as [s|]; [|done].
  destruct (items payload) as [|item l] eqn:Hitems.
  { by rewrite create_order_nil. }
  rewrite create_order_unfold by (by rewrite Hitems).
  rewrite Hitems.
  destruct (omap (accepted B) (item :: l)) as [|a acc]; [done|].
  destruct (create_document _ _ _) as [[e'|oid] s'] eqn:Hins; [|done].
  intros ?; simplify_eq. exists s, s'. split; [done|]. split; [done|].
  by eapply create_document_inl.
Qed.

End Refused.

(** The request [[{quantity: -1, price: 5}]] is refused as invalid. *)
Lemma create_order_invalid_items_witness :
  create_order Literals.builtins (Some Sample.fresh_store)
      (Sample.request [Sample.negative_quantity])
    = (HTTPException 400 "Invalid items", Some Sample.fresh_store) ∧
  "Invalid items" ≠ "No items in order".
Proof.
  apply (create_order_invalid_items Literals.builtins Sample.fresh_store
           (Sample.request [Sample.negative_quantity])).
  - discriminate.
  - repeat constructor.
Defined.

(** The request [[]] is refused as empty. *)
Lemma create_order_no_items_witness :
  create_order Literals.builtins (Some Sample.fresh_store) (Sample.request [])
    = (HTTPException 400 "No items in order", Some Sample.fresh_store).
Proof.
  apply (create_order_no_items Literals.builtins Sample.fresh_store
           (Sample.request [])).
  reflexivity.
Defined.

(** The refused empty request leaves the store as it was. *)
Lemma create_order_error_writes_nothing_witness :
  Some Sample.fresh_store = Some Sample.fresh_store ∧
  ((400, "No items in order") = (500, "Database not configured")
     ∧ Some Sample.fresh_store = None ∨
   (400, "No items in order") = (400, "No items in order")
     ∧ items (Sample.request []) = [] ∨
   (400, "No items in order") = (400, "Invalid items")
     ∧ items (Sample.request []) ≠ []
     ∧ Forall (λ item, accepted Literals.builtins item = None)
         (items (Sample.request []))).
Proof.
  apply (create_order_error_writes_nothing Literals.builtins
           (Some Sample.fresh_store) (Sample.request [])
           400 "No items in order" (Some Sample.fresh_store)).
  reflexivity.
Defined.

(** ** The product catalogue *)

Lemma insert_all (name : string) (l : list dict) (s : store) :
  insertions_succeed (length l) s →
  collection (foldl (λ s p, (create_document s name p).2) s l) name
    = collection s name ++ imap (stamped_nth s) l.
Proof.
  revert s. induction l as [|p l IH]; intros s Hok; simpl.
  { by rewrite app_nil_r. }
  destruct (create_document_inr s name p) as (s1 & -> & Hcoll & _ & Hid & Hnow & Hf).
  { unfold insert_succeeds. rewrite head_lookup. apply Hok. simpl. lia. }
  simpl. rewrite IH.
  - rewrite Hcoll, <- app_assoc. f_equal. simpl. f_equal.
    + unfold stamped, stamped_nth. by rewrite N.add_0_r.
    + apply imap_ext. intros i x _. unfold stamped_nth. simpl.
      rewrite Hid, Hnow. do 3 f_equal. lia.
  - intros i Hi. rewrite Hf, lookup_tail. apply Hok. simpl. lia.
Qed.

Lemma stamped_nth_lookup s i data k :
  k ≠ "_id" → k ≠ "created_at" → stamped_nth s i data !! k = data !! k.
Proof. intros. unfold stamped_nth. by rewrite !lookup_insert_ne. Qed.

Section Catalogue.
Variable B : Builtins.

Lemma stringify_lookup_ne key p k :
  k ≠ key → stringify B key p !! k = p !! k.
Proof.
  intros. unfold stringify. destruct (p !! key); [|done].
  by rewrite lookup_insert_ne.
Qed.

(** The loop over the products read back replaces [_id] by a string
    under [id]. *)
Lemma public_product_id p v :
  p !! "_id" = Some v →
  public_product B p !! "_id" = None ∧
  public_product B p !! "id" = Some (PStr (py_str B v)).
Proof.
  intros Hid. unfold public_product. rewrite Hid.
  rewrite !stringify_lookup_ne by done.
  by rewrite lookup_insert_ne, lookup_delete_eq, lookup_insert_eq.
Qed.

(** C5, as amended: when the product collection is empty and none of
    the four insertions fails, [get_products] inserts exactly the four
    default products, in order (skus RANK_VIP, RANK_MVP, RANK_LEGEND,
    KEYS_GALAXY_10), each under the identifier and the timestamp the
    store assigns, and returns them all with [_id] removed and a string
    under [id]. *)
Theorem get_products_seeds s :
  collection s COLLECTION_PRODUCTS = [] →
  insertions_succeed 4 s →
  ∃ s' docs,
    get_products B (Some s) = (Ok (public_product B <$> docs), Some s') ∧
    collection s' COLLECTION_PRODUCTS = docs ∧
    docs = imap (stamped_nth s) DEFAULT_PRODUCTS ∧
    (λ d, d !! "sku") <$> docs
      = [Some (PStr "RANK_VIP"); Some (PStr "RANK_MVP");
         Some (PStr "RANK_LEGEND"); Some (PStr "KEYS_GALAXY_10")] ∧
    Forall (λ p, p !! "_id" = None ∧ ∃ h, p !! "id" = Some (PStr h))
      (public_product B <$> docs).
Proof.
  intros Hempty Hok.
  pose proof (insert_all COLLECTION_PRODUCTS DEFAULT_PRODUCTS s Hok) as Hseed.
  rewrite Hempty, app_nil_l in Hseed.
  change (foldl _ s DEFAULT_PRODUCTS) with (seed_products s) in Hseed.
  exists (seed_products s), (imap (stamped_nth s) DEFAULT_PRODUCTS).
  split; [|split; [exact Hseed|split; [done|split]]].
  - unfold get_products, count_documents, get_documents.
    rewrite Hempty. simpl Z.eqb. cbv iota. by rewrite Hseed.
  - rewrite fmap_imap.
    transitivity (imap (λ _ p, p !! "sku") DEFAULT_PRODUCTS); [|done].
    apply imap_ext. intros i p _. simpl. by apply stamped_nth_lookup.
  - apply Forall_fmap, Forall_forall. intros d Hd.
    apply list_elem_of_lookup in Hd as [i Hd].
    apply list_lookup_imap_Some in Hd as (p & _ & ->).
    destruct (public_product_id (stamped_nth s i p)
                (PObjectId (pretty (next_id s + N.of_nat i)%N))) as [H1 H2].
    { apply lookup_insert_eq. }
    simpl. eauto.
Qed.

(** C6: when the product collection holds a document, [get_products]
    inserts nothing: it returns the documents of the collection, and the
    store is exactly as before. *)
Theorem get_products_no_reseed s :
  0 < count_documents s COLLECTION_PRODUCTS →
  get_products B (Some s)
    = (Ok (public_product B <$> collection s COLLECTION_PRODUCTS), Some s).
Proof.
  intros Hcount. unfold get_products.
  destruct (Z.eqb_spec (count_documents s COLLECTION_PRODUCTS) 0); [lia|done].
Qed.

(** A second call after a seeding does not seed again. *)
Corollary get_products_twice s :
  collection s COLLECTION_PRODUCTS = [] →
  insertions_succeed 4 s →
  ∃ body s',
    get_products B (Some s) = (Ok body, Some s') ∧
    get_products B (Some s') = (Ok body, Some s') ∧
    length (collection s' COLLECTION_PRODUCTS) = 4%nat.
Proof.
  intros Hempty Hok.
  pose proof (insert_all COLLECTION_PRODUCTS DEFAULT_PRODUCTS s Hok) as Hseed.
  rewrite Hempty, app_nil_l in Hseed.
  change (foldl _ s DEFAULT_PRODUCTS) with (seed_products s) in Hseed.
  assert (get_products B (Some s)
          = (Ok (public_product B <$> collection (seed_products s)
                   COLLECTION_PRODUCTS), Some (seed_products s))) as H1.
  { unfold get_products, count_documents, get_documents.
    rewrite Hempty. done. }
  assert (length (collection (seed_products s) COLLECTION_PRODUCTS) = 4%nat)
    as Hlen by (rewrite Hseed; apply length_imap).
  eexists _, _. split; [exact H1|]. split; [|done].
  unfold get_products, count_documents, get_documents. rewrite Hlen. done.
Qed.

End Catalogue.

(** On a fresh store the four default products are seeded. *)
Lemma get_products_seeds_witness :
  ∃ s' docs,
    get_products Literals.builtins (Some Sample.fresh_store)
      = (Ok (public_product Literals.builtins <$> docs), Some s') ∧
    collection s' COLLECTION_PRODUCTS = docs ∧
    docs = imap (stamped_nth Sample.fresh_store) DEFAULT_PRODUCTS ∧
    (λ d, d !! "sku") <$> docs
      = [Some (PStr "RANK_VIP"); Some (PStr "RANK_MVP");
         Some (PStr "RANK_LEGEND"); Some (PStr "KEYS_GALAXY_10")] ∧
    Forall (λ p, p !! "_id" = None ∧ ∃ h, p !! "id" = Some (PStr h))
      (public_product Literals.builtins <$> docs).
Proof.
  apply (get_products_seeds Literals.builtins Sample.fresh_store).
  - reflexivity.
  - intros i _. simpl. destruct i; discriminate.
Defined.

(** C5, as stated, fails when an insertion fails: on an empty product
    collection whose first insertion fails, [get_products] answers
    without an error and has stored three products only. *)
Lemma get_products_partial_seeding :
  collection Sample.failing_store COLLECTION_PRODUCTS = [] ∧
  ∃ body s',
    get_products Literals.builtins (Some Sample.failing_store) = (Ok body, Some s') ∧
    length body = 3%nat ∧
    (λ d, d !! "sku") <$> collection s' COLLECTION_PRODUCTS
      = [Some (PStr "RANK_MVP"); Some (PStr "RANK_LEGEND");
         Some (PStr "KEYS_GALAXY_10")].
Proof.
  split; [reflexivity|].
  eexists _, _. split; [reflexivity|].
  split; vm_compute; reflexivity.
Qed.

(** A call on the seeded store changes nothing. *)
Lemma get_products_no_reseed_witness :
  get_products Literals.builtins (Some Sample.seeded_store)
    = (Ok (public_product Literals.builtins
             <$> collection Sample.seeded_store COLLECTION_PRODUCTS),
       Some Sample.seeded_store).
Proof.
  apply (get_products_no_reseed Literals.builtins Sample.seeded_store).
  vm_compute. reflexivity.
Defined.

(** ** The stored lines *)

Section Lines.
Variable B : Builtins.

Lemma line_of_insert item q p :
  line_of B item q p =
    <["product_id" :=
        PStr (py_str B (py_or (get item "product_id" PNone) (PStr "")))]>
    (<["quantity" := PInt q]>
    (<["price" := PFloat p]>
    (<["title" := py_or (get item "title" PNone) (PStr "Item")]> ∅))).
Proof. reflexivity. Qed.

Lemma line_of_lookup item q p :
  line_of B item q p !! "product_id"
    = Some (PStr (py_str B (py_or (get item "product_id" PNone) (PStr "")))) ∧
  line_of B item q p !! "quantity" = Some (PInt q) ∧
  line_of B item q p !! "price" = Some (PFloat p) ∧
  line_of B item q p !! "title"
    = Some (py_or (get item "title" PNone) (PStr "Item")).
Proof.
  rewrite line_of_insert.
  repeat split; rewrite ?lookup_insert_ne by done; apply lookup_insert_eq.
Qed.

Lemma line_of_dom item q p :
  dom (line_of B item q p)
    = ({[ "product_id"; "quantity"; "price"; "title" ]} : gset string).
Proof.
  rewrite line_of_insert, !dom_insert_L, dom_empty_L. set_solver.
Qed.

(** C7, as amended: for every raw item accepted into an order, an
    absent quantity is stored as 1; an absent or empty title is stored
    as "Item"; and the stored product_id is the string of the item's
    product_id when that is present and true as a condition, and the
    empty string otherwise (absent, null, zero, false, empty). *)
Theorem accepted_line_defaults item line amount :
  accepted B item = Some (line, amount) →
  (item !! "quantity" = None → line !! "quantity" = Some (PInt 1)) ∧
  (item !! "title" = None ∨ item !! "title" = Some (PStr "") →
   line !! "title" = Some (PStr "Item")) ∧
  line !! "product_id"
    = Some (PStr match item !! "product_id" with
                 | Some v => if py_truthy v then py_str B v else ""
                 | None => ""
                 end).
Proof.
  intros (q & p & Hq & _ & _ & _ & _ & -> & _)%accepted_inv.
  destruct (line_of_lookup item q p) as (Hid & Hqty & _ & Htitle).
  split; [|split].
  - intros Habs. rewrite Hqty.
    unfold quantity_of, get in Hq. rewrite Habs in Hq. simpl in Hq.
    by injection Hq as <-.
  - intros Ht. rewrite Htitle. unfold get. by destruct Ht as [-> | ->].
  - rewrite Hid. unfold get, py_or.
    destruct (item !! "product_id") as [v|]; simpl; [|done].
    by destruct (py_truthy v).
Qed.

End Lines.

(** The item [{price: 5.0}] is stored with quantity 1, title "Item" and
    an empty product_id. *)
Lemma accepted_line_defaults_witness :
  (Sample.no_quantity !! "quantity" = None →
   line_of Literals.builtins Sample.no_quantity 1 (of_Z 5) !! "quantity"
     = Some (PInt 1)) ∧
  (Sample.no_quantity !! "title" = None
   ∨ Sample.no_quantity !! "title" = Some (PStr "") →
   line_of Literals.builtins Sample.no_quantity 1 (of_Z 5) !! "title"
     = Some (PStr "Item")) ∧
  line_of Literals.builtins Sample.no_quantity 1 (of_Z 5) !! "product_id"
    = Some (PStr "").
Proof.
  apply (accepted_line_defaults Literals.builtins Sample.no_quantity
           (line_of Literals.builtins Sample.no_quantity 1 (of_Z 5))
           (of_Z 5)).
  vm_compute. reflexivity.
Defined.

(** C7, as stated, fails for a product_id that is present and false as
    a condition: the item [{product_id: 0, price: 1.0}] is accepted and
    stored with the empty product_id, not with the string "0". *)
Lemma product_id_zero_stored_empty :
  Sample.product_zero !! "product_id" = Some (PInt 0) ∧
  py_str Literals.builtins (PInt 0) = "0" ∧
  ∃ line amount,
    accepted Literals.builtins Sample.product_zero = Some (line, amount) ∧
    line !! "product_id" = Some (PStr "").
Proof.
  split; [vm_compute; reflexivity|]. split; [vm_compute; reflexivity|].
  eexists _, _. split; [reflexivity|vm_compute; reflexivity].
Qed.

(** ** The persisted order *)

Lemma create_document_inr_inv s name data oid s' :
  create_document s name data = (inr oid, s') →
  oid = pretty (next_id s) ∧
  collection s' name = collection s name ++ [stamped s data].
Proof.
  unfold create_document.
  destruct (insert_failures s) as [|[] rest]; intros [= <- <-]; try done;
    (split; [done|]; unfold collection; simpl; by rewrite lookup_insert_eq).
Qed.

Section Persisted.
Variable B : Builtins.

Lemma omap_stored_line (l : list dict) :
  omap (stored_line B) l = (omap (accepted B) l).*1.
Proof. symmetry. apply list_fmap_omap. Qed.

(** The kept lines are the accepted raw items, in their order. *)
Lemma omap_stored_line_filter (l : list dict) :
  Forall2 (λ raw line, stored_line B raw = Some line)
    (filter (λ raw, is_Some (stored_line B raw)) l) (omap (stored_line B) l).
Proof.
  induction l as [|raw l IH]; simpl; [constructor|].
  rewrite filter_cons.
  destruct (stored_line B raw) as [line|] eqn:Hline.
  - rewrite decide_True by eauto. by constructor.
  - rewrite decide_False by (by intros [? ?]). done.
Qed.

Lemma stored_line_dom item line :
  stored_line B item = Some line →
  dom line = ({[ "product_id"; "quantity"; "price"; "title" ]} : gset string).
Proof.
  unfold stored_line.
  destruct (accepted B item) as [[line' amount]|] eqn:Hacc; intros [= <-].
  apply accepted_inv in Hacc as (q & p & _ & _ & _ & _ & _ & -> & _).
  apply line_of_dom.
Qed.

Lemma stored_items s (o : OrderSchema.t) :
  stamped s (OrderSchema.model_dump o) !! "items"
    = Some (PList (PDict <$> OrderSchema.items o)).
Proof.
  unfold stamped, OrderSchema.model_dump.
  rewrite !lookup_insert_ne by done. apply lookup_insert_eq.
Qed.

(** C9: for every successful order request, the items of the persisted
    order are the lines of the accepted raw items, in the order of the
    input, and each stored line has exactly the four fields product_id,
    quantity, price and title. *)
Theorem create_order_persists_accepted s payload reply db' :
  create_order B (Some s) payload = (Ok reply, db') →
  ∃ s' doc,
    db' = Some s' ∧
    collection s' COLLECTION_ORDERS = collection s COLLECTION_ORDERS ++ [doc] ∧
    doc !! "items"
      = Some (PList (PDict <$> omap (stored_line B) (items payload))) ∧
    Forall2 (λ raw line, stored_line B raw = Some line)
      (filter (λ raw, is_Some (stored_line B raw)) (items payload))
      (omap (stored_line B) (items payload)) ∧
    Forall (λ line,
              dom line
                = ({[ "product_id"; "quantity"; "price"; "title" ]} : gset string))
      (omap (stored_line B) (items payload)).
Proof.
  intros Hrun.
  destruct (items payload) as [|item l] eqn:Hitems.
  { by rewrite create_order_nil in Hrun. }
  rewrite <- Hitems in *.
  rewrite create_order_unfold in Hrun by (by rewrite Hitems).
  destruct (omap (accepted B) (items payload)) as [|a acc] eqn:Hacc; [done|].
  destruct (create_document _ _ _) as [[e|oid] s'] eqn:Hins; [done|].
  injection Hrun as _ <-.
  apply create_document_inr_inv in Hins as [_ Hcoll].
  eexists s', _. split; [done|]. split; [exact Hcoll|].
  split; [|split].
  - rewrite stored_items, omap_stored_line, Hacc. done.
  - apply omap_stored_line_filter.
  - apply Forall_forall. intros line Hline.
    apply list_elem_of_omap in Hline as (raw & _ & Hraw).
    by eapply stored_line_dom.
Qed.

End Persisted.

(** The request [[{quantity: -1, price: 5}, {quantity: 2, price: 9.99}]]
    is stored with the one line of its second item. *)
Lemma create_order_persists_accepted_witness :
  ∃ s' doc,
    (create_order Literals.builtins (Some Sample.fresh_store)
       (Sample.request [Sample.negative_quantity; Sample.two_vip])).2
      = Some s' ∧
    collection s' COLLECTION_ORDERS = [doc] ∧
    doc !! "items"
      = Some (PList [PDict (line_of Literals.builtins Sample.two_vip 2
                              (dec 999 2))]) ∧
    dom (line_of Literals.builtins Sample.two_vip 2 (dec 999 2))
      = ({[ "product_id"; "quantity"; "price"; "title" ]} : gset string).
Proof.
  destruct (create_order_persists_accepted Literals.builtins Sample.fresh_store
              (Sample.request [Sample.negative_quantity; Sample.two_vip])
              {| ok := true; order_id := "0" |}
              (create_order Literals.builtins (Some Sample.fresh_store)
                 (Sample.request [Sample.negative_quantity; Sample.two_vip])).2)
    as (s' & doc & H1 & H2 & H3 & _ & H5).
  - vm_compute. reflexivity.
  - exists s', doc. split; [exact H1|]. split; [exact H2|]. split; [exact H3|].
    exact (Forall_inv H5).
Defined.

(** ** Fractional quantities *)

Lemma digits2_pos_bound (m : positive) : Zpos m < 2 ^ Zpos (digits2_pos m).
Proof.
  induction m as [m IH|m IH|]; simpl digits2_pos;
    rewrite ?Pos2Z.inj_succ, ?Z.pow_succ_r by lia; lia.
Qed.

(** A valid float strictly between 0 and 1 has a mantissa below
    [2^-e]. *)
Lemma below_one_mantissa (f : float) :
  valid f = true → ltb zero f = true → ltb f (of_Z 1) = true →
  ∃ m e, f = S754_finite false m e ∧ e < 0 ∧ Zpos m < 2 ^ (- e).
Proof.
  destruct f as [[]|[]| |[] m e]; try discriminate.
  intros Hvalid _ Hlt. exists m, e. split; [done|].
  unfold valid, valid_binary, bounded, canonical_mantissa, fexp, SpecFloat.emin,
    prec, emax in Hvalid.
  apply andb_prop in Hvalid as [Hcanon%Z.eqb_eq _].
  pose proof (digits2_pos_bound m) as Hm.
  assert (Zpos (digits2_pos m) ≤ 53) as Hd by lia.
  assert (Zpos m < 2 ^ 53) as Hm53.
  { eapply Z.lt_le_trans; [exact Hm|]. apply Z.pow_le_mono_r; lia. }
  change (of_Z 1) with (S754_finite false 4503599627370496 (-52)) in Hlt.
  unfold ltb, SFltb, SFcompare in Hlt.
  destruct (Z.compare_spec e (-52)) as [->|He|He]; [| |done].
  - split; [lia|].
    assert ((m ?= 4503599627370496)%positive = Lt) as Hc.
    { change (m ?= 4503599627370496)%positive
        with (PosDef.Pos.compare_cont Eq m 4503599627370496).
      by destruct (PosDef.Pos.compare_cont Eq m 4503599627370496). }
    change (2 ^ (- (-52))) with 4503599627370496.
    exact Hc.
  - split; [lia|]. eapply Z.lt_le_trans; [exact Hm53|].
    apply Z.pow_le_mono_r; lia.
Qed.

Section Fractional.
Variable B : Builtins.

(** C10: a fractional quantity is no parse failure: [int] gives the
    integer part of a finite float, toward zero; the quantity 2.9 is
    accepted as 2; and a quantity strictly between 0 and 1 becomes 0, on
    which the item is dropped. *)
Theorem fractional_quantity_truncated :
  (∀ s m e,
     py_int B (PFloat (S754_finite s m e)) = Ret (trunc s m e) ∧
     trunc s m e
       = cond_Zopp s (if 0 <=? e then Zpos m * 2 ^ e else Zpos m / 2 ^ (- e))) ∧
  (quantity_of B Sample.fractional_quantity = Ret 2 ∧
   ∃ line amount,
     accepted B Sample.fractional_quantity = Some (line, amount) ∧
     line !! "quantity" = Some (PInt 2)) ∧
  (∀ f item,
     valid f = true → ltb zero f = true → ltb f (of_Z 1) = true →
     item !! "quantity" = Some (PFloat f) →
     quantity_of B item = Ret 0 ∧ accepted B item = None).
Proof.
  split; [|split].
  - intros s m e. split; [done|]. unfold trunc.
    destruct (Z.leb_spec 0 e); destruct s; simpl; try lia.
    all: assert (0 < 2 ^ (- e)) by (apply Z.pow_pos_nonneg; lia).
    + rewrite Z.quot_opp_l, Z.quot_div_nonneg by lia. done.
    + apply Z.quot_div_nonneg; lia.
  - split; [vm_compute; reflexivity|].
    exists (line_of B Sample.fractional_quantity 2 (of_Z 1)), (mul (of_Z 2) (of_Z 1)).
    split; [|apply line_of_lookup].
    apply accepted_intro; try (vm_compute; reflexivity); try lia.
    vm_compute. congruence.
  - intros f item Hvalid Hpos Hlt Hq.
    destruct (below_one_mantissa f Hvalid Hpos Hlt) as (m & e & -> & He & Hm).
    assert (quantity_of B item = Ret 0) as Hzero.
    { unfold quantity_of, get. rewrite Hq. simpl. f_equal. unfold trunc.
      destruct (Z.leb_spec 0 e); [lia|]. simpl.
      apply Z.quot_small. lia. }
    split; [done|]. apply unusable_rejected. left. exists 0. by split.
Qed.

End Fractional.

(** The item [{quantity: 0.5, price: 1.0}] is dropped. *)
Lemma fractional_quantity_truncated_witness :
  quantity_of Literals.builtins
    (list_to_map [("quantity", PFloat (dec 5 1)); ("price", PFloat (of_Z 1))])
    = Ret 0 ∧
  accepted Literals.builtins
    (list_to_map [("quantity", PFloat (dec 5 1)); ("price", PFloat (of_Z 1))])
    = None.
Proof.
  apply (proj2 (proj2 (fractional_quantity_truncated Literals.builtins))
           (dec 5 1)
           (list_to_map [("quantity", PFloat (dec 5 1)); ("price", PFloat (of_Z 1))]));
    vm_compute; reflexivity.
Defined.

(** * Further properties of the order builder *)

Lemma create_document_inr_succeeds s name data oid s' :
  create_document s name data = (inr oid, s') → insert_succeeds s.
Proof.
  unfold create_document, insert_succeeds.
  destruct (insert_failures s) as [|[] rest]; simpl; intros [= _ _]; done.
Qed.

Lemma create_document_others s name data r s' other :
  create_document s name data = (r, s') → other ≠ name →
  collection s' other = collection s other.
Proof.
  intros Hins Hne. destruct r as [e|oid].
  - unfold collection. by rewrite (create_document_inl _ _ _ _ _ Hins).
  - pose proof (create_document_inr_succeeds _ _ _ _ _ Hins) as Hok.
    destruct (create_document_inr s name data Hok) as (s1 & Heq & _ & Hoth & _).
    rewrite Hins in Heq. simplify_eq. by apply Hoth.
Qed.

Section OrderFacts.
Variable B : Builtins.

Lemma omap_accepted_nil (l : list dict) :
  omap (accepted B) l = [] ↔ Forall (λ item, accepted B item = None) l.
Proof.
  split; [|apply omap_all_rejected].
  induction l as [|item l IH]; simpl; [constructor|].
  destruct (accepted B item) eqn:Hacc; [done|]. intros Hl. constructor; auto.
Qed.

Lemma omap_accepted_cons (l : list dict) :
  Exists (λ item, is_Some (accepted B item)) l →
  ∃ a acc, omap (accepted B) l = a :: acc.
Proof.
  intros Hex. destruct (omap (accepted B) l) as [|a acc] eqn:Hacc; [|eauto].
  apply omap_accepted_nil in Hacc. apply Exists_exists in Hex as (x & Hx & [la Hla]).
  rewrite Forall_forall in Hacc. specialize (Hacc x Hx). congruence.
Qed.

(** What a successful request went through. *)
Lemma create_order_ok_inv s payload reply db' :
  create_order B (Some s) payload = (Ok reply, db') →
  ∃ a acc s',
    omap (accepted B) (items payload) = a :: acc ∧
    db' = Some s' ∧ ok reply = true ∧
    create_document s COLLECTION_ORDERS
      (OrderSchema.model_dump (order_of payload (a :: acc)))
      = (inr (order_id reply), s').
Proof.
  intros Hrun.
  destruct (items payload) as [|item l] eqn:Hitems.
  { by rewrite create_order_nil in Hrun. }
  rewrite <- Hitems in *.
  rewrite create_order_unfold in Hrun by (by rewrite Hitems).
  destruct (omap (accepted B) (items payload)) as [|a acc] eqn:Hacc; [done|].
  destruct (create_document _ _ _) as [[e|oid] s'] eqn:Hins; [done|].
  injection Hrun as <- <-. exists a, acc, s'. done.
Qed.

Lemma create_order_ok_intro s payload a acc :
  omap (accepted B) (items payload) = a :: acc →
  insert_succeeds s →
  ∃ s',
    create_order B (Some s) payload
      = (Ok {| ok := true; order_id := pretty (next_id s) |}, Some s') ∧
    collection s' COLLECTION_ORDERS
      = collection s COLLECTION_ORDERS
        ++ [stamped s (OrderSchema.model_dump (order_of payload (a :: acc)))] ∧
    next_id s' = N.succ (next_id s) ∧ now s' = now s ∧
    insert_failures s' = tail (insert_failures s).
Proof.
  intros Hacc Hok.
  rewrite create_order_unfold, Hacc by (intros Hnil; by rewrite Hnil in Hacc).
  destruct (create_document_inr s COLLECTION_ORDERS
              (OrderSchema.model_dump (order_of payload (a :: acc))) Hok)
    as (s' & -> & Hcoll & _ & Hid & Hnow & Hf).
  by exists s'.
Qed.

(** X1.  An item is accepted exactly when its quantity converts by [int]
    to an integer above zero that is in the range of floats, and its
    price converts by [float] to a float that is not below zero. *)
Theorem accepted_iff item :
  is_Some (accepted B item) ↔
  ∃ q p, quantity_of B item = Ret q ∧ 0 < q ∧
    price_of B item = Ret p ∧ ltb p (of_Z 0) = false ∧ in_float_range q.
Proof.
  split.
  - intros [[line amount] (q & p & Hq & Hpos & Hp & Hge & Hfit & _)%accepted_inv].
    exists q, p. repeat split; try done. unfold in_float_range. congruence.
  - intros (q & p & Hq & Hpos & Hp & Hge & Hfit).
    rewrite (accepted_intro B item q p) by done. eauto.
Qed.

(** X2.  [create_order] answers with success exactly when the store is
    configured, at least one item of the request is accepted, and the
    store takes the insertion. *)
Theorem create_order_succeeds_iff db payload :
  (∃ reply db', create_order B db payload = (Ok reply, db')) ↔
  ∃ s, db = Some s ∧
    Exists (λ item, is_Some (accepted B item)) (items payload) ∧
    insert_succeeds s.
Proof.
  split.
  - intros (reply & db' & Hrun). destruct db as [s|]; [|done].
    apply create_order_ok_inv in Hrun as (a & acc & s' & Hacc & _ & _ & Hins).
    exists s. split; [done|]. split; [|by eapply create_document_inr_succeeds].
    assert (a ∈ omap (accepted B) (items payload)) as Hin
      by (rewrite Hacc; left).
    apply list_elem_of_omap in Hin as (item & Hitem & Ha).
    apply Exists_exists. exists item. split; [done|]. by rewrite Ha.
  - intros (s & -> & Hex & Hok).
    destruct (omap_accepted_cons _ Hex) as (a & acc & Hacc).
    destruct (create_order_ok_intro s payload a acc Hacc Hok) as (s' & Hrun & _).
    eauto.
Qed.

(** X3.  Whatever its outcome, [create_order] leaves every collection
    other than the orders as it was, and the orders either as they were
    or, on success only, with one document more at the end. *)
Theorem create_order_frame s payload r db' :
  create_order B (Some s) payload = (r, db') →
  ∃ s', db' = Some s' ∧
    (∀ name, name ≠ COLLECTION_ORDERS → collection s' name = collection s name) ∧
    match r with
    | Ok _ => ∃ doc,
        collection s' COLLECTION_ORDERS = collection s COLLECTION_ORDERS ++ [doc]
    | _ => collection s' COLLECTION_ORDERS = collection s COLLECTION_ORDERS
    end.
Proof.
  destruct (items payload) as [|item l] eqn:Hitems.
  { rewrite create_order_nil by done. intros [= <- <-]. by exists s. }
  rewrite create_order_unfold by (by rewrite Hitems). rewrite Hitems.
  destruct (omap (accepted B) (item :: l)) as [|a acc].
  { intros [= <- <-]. by exists s. }
  destruct (create_document _ _ _) as [[e|oid] s'] eqn:Hins;
    intros [= <- <-]; exists s'; (split; [done|]);
    (split; [intros name Hne; by eapply create_document_others|]).
  - unfold collection. by rewrite (create_document_inl _ _ _ _ _ Hins).
  - apply create_document_inr_inv in Hins as [_ Hcoll]. eauto.
Qed.

End OrderFacts.

(** A refused request on a fresh store leaves every collection as it
    was. *)
Lemma create_order_frame_witness :
  ∃ s', Some Sample.fresh_store = Some s' ∧
    (∀ name, name ≠ COLLECTION_ORDERS →
       collection s' name = collection Sample.fresh_store name) ∧
    collection s' COLLECTION_ORDERS
      = collection Sample.fresh_store COLLECTION_ORDERS.
Proof.
  apply (create_order_frame Literals.builtins Sample.fresh_store
           (Sample.request [Sample.negative_quantity])
           (HTTPException 400 "Invalid items") (Some Sample.fresh_store)).
  vm_compute. reflexivity.
Defined.

(** ** Signs of the amounts *)

Lemma binary_round_aux_not_negative mx ex lx :
  not_negative (binary_round_aux prec emax false mx ex lx).
Proof.
  unfold not_negative, binary_round_aux.
  destruct (shr_fexp prec emax mx ex lx) as [mrs' e'].
  destruct (shr_fexp prec emax _ e' loc_Exact) as [mrs'' e''].
  destruct (shr_m mrs'') as [|m|m]; [done| |done].
  by destruct (Z.leb _ _).
Qed.

Lemma binary_round_not_negative m e :
  not_negative (binary_round prec emax false m e).
Proof.
  unfold binary_round. destruct (shl_align _ _ _) as [mz ez].
  apply binary_round_aux_not_negative.
Qed.

Lemma of_Z_not_negative q : 0 ≤ q → not_negative (of_Z q).
Proof.
  destruct q as [|q|q]; [done| |lia]. intros _.
  apply binary_round_not_negative.
Qed.

Lemma mul_not_negative x y :
  not_negative x → not_negative y → not_negative (mul x y).
Proof.
  destruct x as [[]|[]| |[] mx ex]; destruct y as [[]|[]| |[] my ey];
    try done; intros _ _.
  apply binary_round_aux_not_negative.
Qed.

Lemma add_not_negative x y :
  not_negative x → not_negative y → not_negative (add x y).
Proof.
  destruct x as [[]|[]| |[] mx ex]; destruct y as [[]|[]| |[] my ey];
    try done; intros _ _.
  unfold add, SFadd.
  destruct (shl_align mx ex (Z.min ex ey)) as [mx' ex'].
  destruct (shl_align my ey (Z.min ex ey)) as [my' ey']. simpl.
  apply binary_round_not_negative.
Qed.

Lemma foldl_add_not_negative (l : list float) acc :
  not_negative acc → Forall not_negative l → not_negative (foldl add acc l).
Proof.
  revert acc. induction l as [|x l IH]; intros acc Hacc Hl; cbn [foldl]; [done|].
  apply Forall_cons in Hl as [Hx Hl]. apply IH; [|done].
  by apply add_not_negative.
Qed.

Lemma nearest_not_negative num den : not_negative (nearest false num den).
Proof.
  unfold nearest. destruct num as [|n|n]; [done| |done].
  destruct (SFdiv_core_binary _ _ _ _ _ _) as [[q e] l].
  apply binary_round_aux_not_negative.
Qed.

Lemma py_round_not_negative x ndigits :
  not_negative x → not_negative (py_round x ndigits).
Proof.
  destruct x as [sx|[]| |[] m e]; try done. intros _. unfold py_round.
  destruct (323 <? ndigits)%nat; [done|]. apply nearest_not_negative.
Qed.

(** ** NaN *)

Lemma mul_nan x : mul x S754_nan = S754_nan.
Proof. by destruct x as [?|?| |? ? ?]. Qed.

Lemma add_nan_l x : add S754_nan x = S754_nan.
Proof. by destruct x as [?|?| |? ? ?]. Qed.

Lemma add_nan_r x : add x S754_nan = S754_nan.
Proof. by destruct x as [?|?| |? ? ?]. Qed.

Lemma foldl_add_nan (l : list float) : foldl add S754_nan l = S754_nan.
Proof. induction l as [|x l IH]; cbn [foldl]; [done|]. by rewrite add_nan_l. Qed.

Lemma foldl_add_elem_nan (l : list float) acc :
  S754_nan ∈ l → foldl add acc l = S754_nan.
Proof.
  revert acc. induction l as [|x l IH]; intros acc Hin; [by apply elem_of_nil in Hin|].
  apply elem_of_cons in Hin as [<-|Hin]; cbn [foldl].
  - by rewrite add_nan_r, foldl_add_nan.
  - by apply IH.
Qed.

(** ** What a stored order holds *)

Lemma stamped_lookup s data k :
  k ≠ "_id" → k ≠ "created_at" → stamped s data !! k = data !! k.
Proof. intros. unfold stamped. by rewrite !lookup_insert_ne. Qed.

Lemma model_dump_lookup (o : OrderSchema.t) :
  OrderSchema.model_dump o !! "items"
    = Some (PList (PDict <$> OrderSchema.items o)) ∧
  OrderSchema.model_dump o !! "subtotal" = Some (PFloat (OrderSchema.subtotal o)) ∧
  OrderSchema.model_dump o !! "buyer_email"
    = Some (from_option PStr PNone (OrderSchema.buyer_email o)) ∧
  OrderSchema.model_dump o !! "buyer_username"
    = Some (from_option PStr PNone (OrderSchema.buyer_username o)) ∧
  OrderSchema.model_dump o !! "note"
    = Some (from_option PStr PNone (OrderSchema.note o)).
Proof.
  unfold OrderSchema.model_dump, OrderSchema.opt_str.
  repeat split; rewrite ?lookup_insert_ne by done; apply lookup_insert_eq.
Qed.

Section StoredOrder.
Variable B : Builtins.

(** The document a successful request stores. *)
Lemma create_order_ok_doc s payload reply db' :
  create_order B (Some s) payload = (Ok reply, db') →
  ∃ a acc s',
    omap (accepted B) (items payload) = a :: acc ∧
    db' = Some s' ∧
    collection s' COLLECTION_ORDERS
      = collection s COLLECTION_ORDERS
        ++ [stamped s (OrderSchema.model_dump (order_of payload (a :: acc)))].
Proof.
  intros (a & acc & s' & Hacc & -> & _ & Hins)%create_order_ok_inv.
  apply create_document_inr_inv in Hins as [_ Hcoll].
  exists a, acc, s'. done.
Qed.

Lemma py_or_truthy v : py_truthy (py_or v (PStr "Item")) = true.
Proof. unfold py_or. by destruct (py_truthy v) eqn:Hv. Qed.

Lemma accepted_well_formed item line amount :
  accepted B item = Some (line, amount) →
  well_formed_line line ∧ not_negative amount.
Proof.
  intros (q & p & _ & Hq & _ & Hp & _ & -> & ->)%accepted_inv.
  destruct (line_of_lookup B item q p) as (Hid & Hqty & Hprice & Htitle).
  split.
  - exists q, p, (py_str B (py_or (get item "product_id" PNone) (PStr ""))),
      (py_or (get item "title" PNone) (PStr "Item")).
    repeat split; try done; [lia|apply py_or_truthy].
  - apply mul_not_negative; [apply of_Z_not_negative; lia|done].
Qed.

Lemma omap_accepted_well_formed (l : list dict) :
  Forall well_formed_line (omap (accepted B) l).*1 ∧
  Forall not_negative (omap (accepted B) l).*2.
Proof.
  split; apply Forall_fmap, Forall_forall; intros [line amount] Hin;
    apply list_elem_of_omap in Hin as (item & _ & Hacc);
    by apply accepted_well_formed in Hacc as [? ?].
Qed.

(** X4.  A stored order carries the buyer's email, the buyer's username
    and the note of the request as they came, null where the request had
    none. *)
Theorem create_order_keeps_buyer s payload reply db' :
  create_order B (Some s) payload = (Ok reply, db') →
  ∃ s' doc,
    db' = Some s' ∧
    collection s' COLLECTION_ORDERS = collection s COLLECTION_ORDERS ++ [doc] ∧
    doc !! "buyer_email" = Some (from_option PStr PNone (buyer_email payload)) ∧
    doc !! "buyer_username"
      = Some (from_option PStr PNone (buyer_username payload)) ∧
    doc !! "note" = Some (from_option PStr PNone (note payload)).
Proof.
  intros (a & acc & s' & _ & -> & Hcoll)%create_order_ok_doc.
  eexists s', _. split; [done|]. split; [exact Hcoll|].
  rewrite !stamped_lookup by done.
  destruct (model_dump_lookup (order_of payload (a :: acc)))
    as (_ & _ & He & Hu & Hn).
  done.
Qed.

(** X5.  The items of a stored order are never empty, and every stored
    line has an integer quantity of at least 1, a float price that is not
    below zero, a string product_id, and a title that is true as a
    condition. *)
Theorem persisted_lines_well_formed s payload reply db' :
  create_order B (Some s) payload = (Ok reply, db') →
  ∃ s' doc lines,
    db' = Some s' ∧
    collection s' COLLECTION_ORDERS = collection s COLLECTION_ORDERS ++ [doc] ∧
    doc !! "items" = Some (PList (PDict <$> lines)) ∧
    lines ≠ [] ∧ Forall well_formed_line lines.
Proof.
  intros (a & acc & s' & Hacc & -> & Hcoll)%create_order_ok_doc.
  eexists s', _, ((a :: acc).*1). split; [done|]. split; [exact Hcoll|].
  split; [|split; [done|]].
  - rewrite stamped_lookup by done.
    by destruct (model_dump_lookup (order_of payload (a :: acc))) as [-> _].
  - rewrite <- Hacc. apply omap_accepted_well_formed.
Qed.

(** X6.  The subtotal of a stored order is never below zero. *)
Theorem persisted_subtotal_not_negative s payload reply db' :
  create_order B (Some s) payload = (Ok reply, db') →
  ∃ s' doc x,
    db' = Some s' ∧
    collection s' COLLECTION_ORDERS = collection s COLLECTION_ORDERS ++ [doc] ∧
    doc !! "subtotal" = Some (PFloat x) ∧ not_negative x.
Proof.
  intros (a & acc & s' & Hacc & -> & Hcoll)%create_order_ok_doc.
  eexists s', _, _. split; [done|]. split; [exact Hcoll|]. split.
  - rewrite stamped_lookup by done.
    by destruct (model_dump_lookup (order_of payload (a :: acc))) as (_ & -> & _).
  - unfold order_of; cbn [OrderSchema.subtotal].
    apply py_round_not_negative. unfold float_sum.
    apply foldl_add_not_negative; [done|].
    rewrite <- Hacc. apply omap_accepted_well_formed.
Qed.

(** X7.  A price that is NaN passes the check [price < 0]: an item with
    such a price and a usable quantity is accepted, and the subtotal of
    the stored order is then NaN, whatever the other items are. *)
Theorem nan_price_poisons_subtotal s payload item q :
  item ∈ items payload →
  quantity_of B item = Ret q → 0 < q → in_float_range q →
  price_of B item = Ret S754_nan →
  insert_succeeds s →
  ∃ s' doc,
    create_order B (Some s) payload
      = (Ok {| ok := true; order_id := pretty (next_id s) |}, Some s') ∧
    collection s' COLLECTION_ORDERS = collection s COLLECTION_ORDERS ++ [doc] ∧
    doc !! "subtotal" = Some (PFloat S754_nan).
Proof.
  intros Hin Hq Hpos Hfit Hp Hok.
  pose proof (accepted_intro B item q S754_nan Hq Hpos Hp eq_refl Hfit) as Hitem.
  rewrite mul_nan in Hitem.
  assert ((line_of B item q S754_nan, S754_nan) ∈ omap (accepted B) (items payload))
    as Hmem by (apply list_elem_of_omap; eauto).
  destruct (omap (accepted B) (items payload)) as [|a acc] eqn:Hacc;
    [by apply elem_of_nil in Hmem|].
  destruct (create_order_ok_intro B s payload a acc Hacc Hok)
    as (s' & Hrun & Hcoll & _).
  eexists s', _. split; [exact Hrun|]. split; [exact Hcoll|].
  rewrite stamped_lookup by done.
  destruct (model_dump_lookup (order_of payload (a :: acc))) as (_ & -> & _).
  unfold order_of; cbn [OrderSchema.subtotal]. do 2 f_equal. unfold float_sum.
  rewrite (foldl_add_elem_nan ((a :: acc).*2) zero); [done|].
  change S754_nan with ((line_of B item q S754_nan, S754_nan).2).
  by apply list_elem_of_fmap_2.
Qed.

(** X8.  There is no guard against repetition: the same request sent
    twice stores two orders, one after the other, equal in every field but
    the identifier and the timestamp the store assigns. *)
Theorem create_order_twice s payload :
  Exists (λ item, is_Some (accepted B item)) (items payload) →
  insertions_succeed 2 s →
  ∃ reply1 s1 reply2 s2 doc1 doc2,
    create_order B (Some s) payload = (Ok reply1, Some s1) ∧
    create_order B (Some s1) payload = (Ok reply2, Some s2) ∧
    collection s2 COLLECTION_ORDERS
      = collection s COLLECTION_ORDERS ++ [doc1; doc2] ∧
    ∀ k, k ≠ "_id" → k ≠ "created_at" → doc1 !! k = doc2 !! k.
Proof.
  intros Hex Hok.
  destruct (omap_accepted_cons B _ Hex) as (a & acc & Hacc).
  destruct (create_order_ok_intro B s payload a acc Hacc)
    as (s1 & Hrun1 & Hcoll1 & _ & _ & Hf1).
  { unfold insert_succeeds. rewrite head_lookup. apply Hok. lia. }
  destruct (create_order_ok_intro B s1 payload a acc Hacc)
    as (s2 & Hrun2 & Hcoll2 & _).
  { unfold insert_succeeds. rewrite Hf1, head_lookup, lookup_tail. apply Hok. lia. }
  eexists _, s1, _, s2, _, _. split; [exact Hrun1|]. split; [exact Hrun2|].
  split; [by rewrite Hcoll2, Hcoll1, <- app_assoc|].
  intros k H1 H2. by rewrite !stamped_lookup.
Qed.

End StoredOrder.

Lemma create_order_keeps_buyer_witness :
  ∃ s' doc,
    (create_order Literals.builtins (Some Sample.fresh_store)
       Sample2.signed_request).2 = Some s' ∧
    collection s' COLLECTION_ORDERS = [doc] ∧
    doc !! "buyer_email" = Some (PStr "steve@example.com") ∧
    doc !! "buyer_username" = Some (PStr "Steve") ∧
    doc !! "note" = Some PNone.
Proof.
  apply (create_order_keeps_buyer Literals.builtins Sample.fresh_store
           Sample2.signed_request {| ok := true; order_id := "0" |}
           (create_order Literals.builtins (Some Sample.fresh_store)
              Sample2.signed_request).2).
  vm_compute. reflexivity.
Defined.

Lemma persisted_lines_well_formed_witness :
  ∃ s' doc lines,
    (create_order Literals.builtins (Some Sample.fresh_store)
       (Sample.request [Sample.two_vip])).2 = Some s' ∧
    collection s' COLLECTION_ORDERS = [doc] ∧
    doc !! "items" = Some (PList (PDict <$> lines)) ∧
    lines ≠ [] ∧ Forall well_formed_line lines.
Proof.
  apply (persisted_lines_well_formed Literals.builtins Sample.fresh_store
           (Sample.request [Sample.two_vip]) {| ok := true; order_id := "0" |}
           (create_order Literals.builtins (Some Sample.fresh_store)
              (Sample.request [Sample.two_vip])).2).
  vm_compute. reflexivity.
Defined.

Lemma persisted_subtotal_not_negative_witness :
  ∃ s' doc x,
    (create_order Literals.builtins (Some Sample.fresh_store)
       (Sample.request [Sample.two_vip])).2 = Some s' ∧
    collection s' COLLECTION_ORDERS = [doc] ∧
    doc !! "subtotal" = Some (PFloat x) ∧ not_negative x.
Proof.
  apply (persisted_subtotal_not_negative Literals.builtins Sample.fresh_store
           (Sample.request [Sample.two_vip]) {| ok := true; order_id := "0" |}
           (create_order Literals.builtins (Some Sample.fresh_store)
              (Sample.request [Sample.two_vip])).2).
  vm_compute. reflexivity.
Defined.

(** The request [[{quantity: 2, price: 9.99}, {price: NaN}]] is stored
    with subtotal NaN. *)
Lemma nan_price_poisons_subtotal_witness :
  ∃ s' doc,
    create_order Literals.builtins (Some Sample.fresh_store)
        (Sample.request [Sample.two_vip; Sample2.nan_price])
      = (Ok {| ok := true; order_id := "0" |}, Some s') ∧
    collection s' COLLECTION_ORDERS = [doc] ∧
    doc !! "subtotal" = Some (PFloat S754_nan).
Proof.
  apply (nan_price_poisons_subtotal Literals.builtins Sample.fresh_store
           (Sample.request [Sample.two_vip; Sample2.nan_price])
           Sample2.nan_price 1).
  - right. left.
  - vm_compute. reflexivity.
  - lia.
  - vm_compute. congruence.
  - vm_compute. reflexivity.
  - vm_compute. congruence.
Defined.

Lemma create_order_twice_witness :
  ∃ reply1 s1 reply2 s2 doc1 doc2,
    create_order Literals.builtins (Some Sample.fresh_store)
        (Sample.request [Sample.two_vip]) = (Ok reply1, Some s1) ∧
    create_order Literals.builtins (Some s1)
        (Sample.request [Sample.two_vip]) = (Ok reply2, Some s2) ∧
    collection s2 COLLECTION_ORDERS = [doc1; doc2] ∧
    ∀ k, k ≠ "_id" → k ≠ "created_at" → doc1 !! k = doc2 !! k.
Proof.
  apply (create_order_twice Literals.builtins Sample.fresh_store
           (Sample.request [Sample.two_vip])).
  - left.
    rewrite (accepted_intro Literals.builtins Sample.two_vip 2 (dec 999 2));
      [by eexists|vm_compute; reflexivity|lia|vm_compute; reflexivity
      |vm_compute; reflexivity|vm_compute; congruence].
  - intros i _. simpl. destruct i; discriminate.
Defined.

(** * Further properties of the product catalogue *)

Lemma unstamped_stamped s (p : dict) :
  p !! "_id" = None → p !! "created_at" = None → unstamped (stamped s p) = p.
Proof.
  intros Hid Hat. unfold unstamped, stamped.
  rewrite (delete_insert_ne _ "created_at" "_id") by done.
  rewrite (delete_insert_eq p "created_at"), (delete_id p "created_at") by done.
  rewrite delete_insert_eq. by apply delete_id.
Qed.

Lemma survivors_nil {A} (l : list A) : survivors l [] = l.
Proof. by destruct l. Qed.

Lemma create_document_inl_script s name data e s' :
  create_document s name data = (inl e, s') →
  insert_failures s = true :: insert_failures s'.
Proof.
  unfold create_document.
  destruct (insert_failures s) as [|[] rest]; intros ?; by simplify_eq.
Qed.

(** The seeding loop on any list and any script. *)
Lemma insert_many (name : string) (l : list dict) (s : store) :
  Forall (λ p, p !! "_id" = None ∧ p !! "created_at" = None) l →
  ∃ added,
    collection (foldl (λ s p, (create_document s name p).2) s l) name
      = collection s name ++ added ∧
    unstamped <$> added = survivors l (insert_failures s) ∧
    ∀ other, other ≠ name →
      collection (foldl (λ s p, (create_document s name p).2) s l) other
        = collection s other.
Proof.
  revert s. induction l as [|p l IH]; intros s Hl.
  { exists []. by rewrite app_nil_r. }
  apply Forall_cons in Hl as [[Hid Hat] Hl]. cbn [foldl].
  destruct (create_document s name p) as [r s1] eqn:Hins. cbn [snd].
  destruct (IH s1 Hl) as (added & Hcoll & Hsurv & Hoth).
  destruct r as [e|oid].
  - exists added.
    pose proof (create_document_inl _ _ _ _ _ Hins) as Hsame.
    pose proof (create_document_inl_script _ _ _ _ _ Hins) as Hf.
    unfold collection in *. rewrite <- Hsame. split; [done|]. split; [|done].
    by rewrite Hsurv, Hf.
  - pose proof (create_document_inr_succeeds _ _ _ _ _ Hins) as Hok.
    destruct (create_document_inr s name p Hok)
      as (s1' & Heq & Hcoll1 & Hoth1 & _ & _ & Hf1).
    rewrite Hins in Heq. simplify_eq.
    exists (stamped s p :: added). split; [|split].
    + by rewrite Hcoll, Hcoll1, <- app_assoc.
    + rewrite fmap_cons, unstamped_stamped, Hsurv, Hf1 by done.
      unfold insert_succeeds in Hok.
      destruct (insert_failures s) as [|[] rest]; simpl in *;
        [by rewrite survivors_nil|done|done].
    + intros other Hne. rewrite Hoth by done. by apply Hoth1.
Qed.

Lemma default_products_unstamped :
  Forall (λ p : dict, p !! "_id" = None ∧ p !! "created_at" = None)
    DEFAULT_PRODUCTS.
Proof. repeat constructor. Qed.

Section CatalogueFacts.
Variable B : Builtins.

Lemma public_product_no_id p : public_product B p !! "_id" = None.
Proof.
  unfold public_product. rewrite !stringify_lookup_ne by done.
  destruct (p !! "_id") eqn:Hid; [|done].
  by rewrite lookup_insert_ne, lookup_delete_eq.
Qed.

Lemma stringify_lookup_eq key p :
  stringify B key p !! key = (λ v, PStr (py_str B v)) <$> p !! key.
Proof.
  unfold stringify. destruct (p !! key) eqn:Hk; simpl; [|done].
  apply lookup_insert_eq.
Qed.

(** X9.  What the response makes of a stored product: [_id] is never
    there; [id] is the string of [_id] when the document has one, and
    its own [id] otherwise; [created_at] and [updated_at] are turned
    into strings where present; every other field is as stored. *)
Theorem public_product_fields p :
  public_product B p !! "_id" = None ∧
  public_product B p !! "id"
    = match p !! "_id" with
      | Some v => Some (PStr (py_str B v))
      | None => p !! "id"
      end ∧
  public_product B p !! "created_at"
    = (λ v, PStr (py_str B v)) <$> p !! "created_at" ∧
  public_product B p !! "updated_at"
    = (λ v, PStr (py_str B v)) <$> p !! "updated_at" ∧
  ∀ k, k ≠ "_id" → k ≠ "id" → k ≠ "created_at" → k ≠ "updated_at" →
    public_product B p !! k = p !! k.
Proof.
  split; [apply public_product_no_id|].
  unfold public_product. split; [|split; [|split]].
  - rewrite !stringify_lookup_ne by done.
    destruct (p !! "_id"); [apply lookup_insert_eq|done].
  - rewrite stringify_lookup_ne, stringify_lookup_eq by done.
    destruct (p !! "_id"); [|done].
    by rewrite lookup_insert_ne, lookup_delete_ne.
  - rewrite stringify_lookup_eq, stringify_lookup_ne by done.
    destruct (p !! "_id"); [|done].
    by rewrite lookup_insert_ne, lookup_delete_ne.
  - intros k H1 H2 H3 H4. rewrite !stringify_lookup_ne by done.
    destruct (p !! "_id"); [|done].
    by rewrite lookup_insert_ne, lookup_delete_ne.
Qed.

Lemma get_products_unfold s :
  get_products B (Some s)
    = (Ok (public_product B <$>
             collection (if count_documents s COLLECTION_PRODUCTS =? 0
                         then seed_products s else s) COLLECTION_PRODUCTS),
       Some (if count_documents s COLLECTION_PRODUCTS =? 0
             then seed_products s else s)).
Proof. reflexivity. Qed.

(** X10.  With a store, [get_products] always answers: with one entry
    for each document the product collection holds after the call, none
    of them showing [_id].  It removes and changes no stored product (the
    collection before is a prefix of the collection after), and leaves
    every other collection as it was. *)
Theorem get_products_frame s :
  ∃ body s',
    get_products B (Some s) = (Ok body, Some s') ∧
    body = public_product B <$> collection s' COLLECTION_PRODUCTS ∧
    collection s COLLECTION_PRODUCTS `prefix_of` collection s' COLLECTION_PRODUCTS ∧
    (∀ name, name ≠ COLLECTION_PRODUCTS → collection s' name = collection s name) ∧
    Forall (λ p, p !! "_id" = None) body.
Proof.
  eexists _, _. split; [apply get_products_unfold|]. split; [done|].
  split; [|split].
  - destruct (_ =? 0); [|done].
    destruct (insert_many COLLECTION_PRODUCTS DEFAULT_PRODUCTS s
                default_products_unstamped) as (added & Hcoll & _).
    exists added. exact Hcoll.
  - intros name Hne. destruct (_ =? 0); [|done].
    destruct (insert_many COLLECTION_PRODUCTS DEFAULT_PRODUCTS s
                default_products_unstamped) as (added & _ & _ & Hoth).
    by apply Hoth.
  - apply Forall_fmap, Forall_forall. intros p _. apply public_product_no_id.
Qed.

(** X11.  Once the product collection holds a document after a call,
    the next call answers the same and changes nothing: a partial seeding
    is never completed later. *)
Theorem get_products_idempotent s r1 s1 :
  get_products B (Some s) = (r1, Some s1) →
  collection s1 COLLECTION_PRODUCTS ≠ [] →
  get_products B (Some s1) = (r1, Some s1).
Proof.
  rewrite get_products_unfold. intros [= <- Hs1] Hne.
  rewrite Hs1, get_products_unfold.
  assert ((count_documents s1 COLLECTION_PRODUCTS =? 0) = false) as ->; [|done].
  unfold count_documents. by destruct (collection s1 COLLECTION_PRODUCTS).
Qed.

(** X12.  On an empty product collection the seeding stores the default
    products whose insertion did not fail, in their order and as they
    are but for the identifier and the timestamp of the store, and the
    response has one entry for each. *)
Theorem get_products_seeds_survivors s :
  collection s COLLECTION_PRODUCTS = [] →
  ∃ body s',
    get_products B (Some s) = (Ok body, Some s') ∧
    unstamped <$> collection s' COLLECTION_PRODUCTS
      = survivors DEFAULT_PRODUCTS (insert_failures s) ∧
    length body = length (survivors DEFAULT_PRODUCTS (insert_failures s)).
Proof.
  intros Hempty.
  destruct (insert_many COLLECTION_PRODUCTS DEFAULT_PRODUCTS s
              default_products_unstamped) as (added & Hcoll & Hsurv & _).
  rewrite Hempty, app_nil_l in Hcoll.
  change (foldl _ s DEFAULT_PRODUCTS) with (seed_products s) in Hcoll.
  eexists _, _. split; [apply get_products_unfold|].
  assert ((count_documents s COLLECTION_PRODUCTS =? 0) = true) as ->
    by (unfold count_documents; by rewrite Hempty).
  rewrite Hcoll. split; [done|].
  by rewrite length_fmap, <- Hsurv, length_fmap.
Qed.

End CatalogueFacts.

(** * Properties of the diagnostic endpoint *)

Section DiagnosticsFacts.
Variable R : Runtime.

Lemma env_status_set environ key :
  env_status environ key
    = PStr (if env_set environ key then "✅ Set" else "❌ Not Set").
Proof.
  unfold env_status, env_set.
  destruct (environ !! key) as [v|]; simpl; [|done].
  by destruct (String.eqb v "").
Qed.

Lemma name_readable_dec d :
  name_readable R d ∨ ∃ message, db_name R d = Fails message.
Proof.
  unfold name_readable. destruct (db_name R d) as [|v|m]; eauto.
Qed.

Ltac lookups :=
  repeat first [rewrite lookup_insert_eq | rewrite lookup_insert_ne by done].

Ltac branches db :=
  unfold test_database;
  destruct db as [d|];
    [destruct (db_name R d) as [|v|m] eqn:Hname;
       [destruct (list_collection_names R d) as [m'|l] eqn:Hlist
       |destruct (list_collection_names R d) as [m'|l] eqn:Hlist|]|];
  cbn [list_to_map foldr uncurry curry fst snd].

(** X13.  The response of [test_database] always has the same six
    fields, says that the backend runs, and reports the two environment
    variables by the environment alone: "Set" exactly when the variable
    is set to a string that is not empty, whatever the store is or
    does. *)
Theorem test_database_environment db environ :
  dom (test_database R db environ)
    = ({[ "backend"; "database"; "database_url"; "database_name";
          "connection_status"; "collections" ]} : gset string) ∧
  test_database R db environ !! "backend" = Some (PStr "✅ Running") ∧
  test_database R db environ !! "database_url"
    = Some (PStr (if env_set environ "DATABASE_URL"
                  then "✅ Set" else "❌ Not Set")) ∧
  test_database R db environ !! "database_name"
    = Some (PStr (if env_set environ "DATABASE_NAME"
                  then "✅ Set" else "❌ Not Set")).
Proof.
  rewrite <- !env_status_set. split; [|split; [|split]].
  - branches db; rewrite !dom_insert_L, dom_empty_L; set_solver.
  - branches db; by lookups.
  - branches db; by lookups.
  - branches db; by lookups.
Qed.

(** X14.  The collections of the response are at most ten names: the
    first ten the store lists when it is there, its name can be read and
    the listing succeeds, and none otherwise. *)
Theorem test_database_collections db environ :
  ∃ names,
    test_database R db environ !! "collections" = Some (PList (PStr <$> names)) ∧
    (length names ≤ 10)%nat ∧
    (∀ d l, db = Some d → name_readable R d →
            list_collection_names R d = inr l → names = take 10 l) ∧
    (db = None → names = []) ∧
    (∀ d message, db = Some d →
       db_name R d = Fails message ∨ list_collection_names R d = inl message →
       names = []).
Proof.
  branches db.
  1, 3, 5, 6: exists []; (split; [by lookups|]); (split; [simpl; lia|]);
    (split; [intros d' l' [= <-] Hr Hl; first [congruence | by destruct (Hr m)]
            |split; [done|done]]).
  1, 2: exists (take 10 l); (split; [by lookups|]);
    (split; [rewrite length_take; lia|]);
    (split; [intros d' l' [= <-] _ Hl; congruence|]);
    (split; [done|]);
    intros d' m' [= <-] [Hn|Hl']; congruence.
Qed.

(** X15.  The connection is reported as connected exactly when the store
    is there and its name can be read, and the database as working
    exactly when, on top of that, the listing of the collections
    succeeds. *)
Theorem test_database_status db environ :
  (test_database R db environ !! "connection_status" = Some (PStr "Connected")
   ↔ ∃ d, db = Some d ∧ name_readable R d) ∧
  (test_database R db environ !! "database" = Some (PStr "✅ Connected & Working")
   ↔ ∃ d l, db = Some d ∧ name_readable R d ∧ list_collection_names R d = inr l).
Proof.
  branches db; lookups; (split; split).
  all: try done.
  all: try (intros _; eexists; split; [done|]; intros m0; congruence).
  all: try (intros _; eexists _, _; split; [done|]; split; [|done];
            intros m0; congruence).
  all: try (intros (d' & [= <-] & Hr); by destruct (Hr m)).
  all: try (intros (d' & l' & [= <-] & Hr & Hl); first [congruence | by destruct (Hr m)]).
  all: try (intros (d' & [= ] & _)).
  all: try (intros (d' & l' & [= ] & _)).
  all: try (cbn [String.app]; intros [=]).
Qed.

End DiagnosticsFacts.

(** The call after a seeding answers as the seeding call did. *)
Lemma get_products_idempotent_witness :
  get_products Literals.builtins (Some Sample.seeded_store)
    = ((get_products Literals.builtins (Some Sample.fresh_store)).1,
       Some Sample.seeded_store).
Proof.
  apply (get_products_idempotent Literals.builtins Sample.fresh_store).
  - reflexivity.
  - intros Hnil.
    assert (length (collection Sample.seeded_store COLLECTION_PRODUCTS) = 4%nat)
      as Hlen by (vm_compute; reflexivity).
    rewrite Hnil in Hlen. discriminate Hlen.
Defined.

(** With the first insertion failing, the last three default products
    are stored. *)
Lemma get_products_seeds_survivors_witness :
  ∃ body s',
    get_products Literals.builtins (Some Sample.failing_store)
      = (Ok body, Some s') ∧
    unstamped <$> collection s' COLLECTION_PRODUCTS = drop 1 DEFAULT_PRODUCTS ∧
    length body = 3%nat.
Proof.
  apply (get_products_seeds_survivors Literals.builtins Sample.failing_store).
  reflexivity.
Defined.

(** * Properties of the stored order, continued *)

Section StoredOrderFacts.
Variable B : Builtins.

Lemma accepted_line_amount item line amount :
  accepted B item = Some (line, amount) → line_amount line = Some amount.
Proof.
  intros (q & p & _ & _ & _ & _ & _ & -> & ->)%accepted_inv.
  destruct (line_of_lookup B item q p) as (_ & Hqty & Hprice & _).
  unfold line_amount. by rewrite Hqty, Hprice.
Qed.

Lemma omap_accepted_amounts (l : list dict) :
  mapM line_amount (omap (accepted B) l).*1 = Some (omap (accepted B) l).*2.
Proof.
  apply mapM_Some, Forall2_fmap, Forall_Forall2_diag, Forall_forall.
  intros [line amount] Hin.
  apply list_elem_of_omap in Hin as (item & _ & Hacc).
  by eapply accepted_line_amount.
Qed.

(** X16.  A failure of the store on the insertion of the order is not
    turned into an [HTTPException]: it escapes from [create_order], and
    this happens exactly when the store is configured, an item is
    accepted, and the insertion fails; nothing is stored then. *)
Theorem create_order_store_failure_escapes db payload :
  (∃ e db', create_order B db payload = (Uncaught e, db')) ↔
  ∃ s, db = Some s ∧
    Exists (λ item, is_Some (accepted B item)) (items payload) ∧
    ¬ insert_succeeds s.
Proof.
  split.
  - intros (e & db' & Hrun). destruct db as [s|]; [|done].
    exists s. split; [done|].
    destruct (items payload) as [|item l] eqn:Hitems.
    { by rewrite create_order_nil in Hrun. }
    rewrite <- Hitems in *.
    rewrite create_order_unfold in Hrun by (by rewrite Hitems).
    destruct (omap (accepted B) (items payload)) as [|a acc] eqn:Hacc; [done|].
    split.
    + assert (a ∈ omap (accepted B) (items payload)) as Hin
        by (rewrite Hacc; left).
      apply list_elem_of_omap in Hin as (it & Hit & Ha).
      apply Exists_exists. exists it. split; [done|]. by rewrite Ha.
    + intros Hok.
      destruct (create_document_inr s COLLECTION_ORDERS
                  (OrderSchema.model_dump (order_of payload (a :: acc))) Hok)
        as (s' & Heq & _).
      by rewrite Heq in Hrun.
  - intros (s & -> & Hex & Hfail).
    destruct (omap_accepted_cons B _ Hex) as (a & acc & Hacc).
    rewrite create_order_unfold, Hacc by (intros Hnil; by rewrite Hnil in Hacc).
    destruct (create_document _ _ _) as [[e|oid] s'] eqn:Hins; [eauto|].
    destruct Hfail. by eapply create_document_inr_succeeds.
Qed.

(** X17.  The line stored for an accepted item holds the converted
    values, not the raw ones: the integer [int] made of the quantity, the
    float [float] made of the price, and the title as it came, of
    whatever type, when it is true as a condition, "Item" otherwise. *)
Theorem accepted_line_normalized item line amount :
  accepted B item = Some (line, amount) →
  ∃ q p,
    quantity_of B item = Ret q ∧ price_of B item = Ret p ∧
    line !! "quantity" = Some (PInt q) ∧
    line !! "price" = Some (PFloat p) ∧
    line !! "title"
      = Some match item !! "title" with
             | Some v => if py_truthy v then v else PStr "Item"
             | None => PStr "Item"
             end ∧
    amount = mul (of_Z q) p.
Proof.
  intros (q & p & Hq & _ & Hp & _ & _ & -> & ->)%accepted_inv.
  destruct (line_of_lookup B item q p) as (_ & Hqty & Hprice & Htitle).
  exists q, p. repeat split; try done.
  rewrite Htitle. unfold get, py_or. by destruct (item !! "title").
Qed.

(** X18.  A stored order is consistent in itself: its subtotal is
    [round(s, 2)] for the sum [s], from left to right, of quantity times
    price over its own stored lines. *)
Theorem persisted_subtotal_consistent s payload reply db' :
  create_order B (Some s) payload = (Ok reply, db') →
  ∃ s' doc lines amounts,
    db' = Some s' ∧
    collection s' COLLECTION_ORDERS = collection s COLLECTION_ORDERS ++ [doc] ∧
    doc !! "items" = Some (PList (PDict <$> lines)) ∧
    mapM line_amount lines = Some amounts ∧
    doc !! "subtotal" = Some (PFloat (py_round (float_sum amounts) 2)).
Proof.
  intros (a & acc & s' & Hacc & -> & Hcoll)%create_order_ok_doc.
  eexists s', _, ((a :: acc).*1), ((a :: acc).*2).
  split; [done|]. split; [exact Hcoll|].
  rewrite !stamped_lookup by done.
  destruct (model_dump_lookup (order_of payload (a :: acc))) as (-> & -> & _).
  split; [done|]. split; [|done].
  rewrite <- Hacc. apply omap_accepted_amounts.
Qed.

End StoredOrderFacts.

(** The item [{price: 5.0}] is stored with the defaults. *)
Lemma accepted_line_normalized_witness :
  ∃ q p,
    quantity_of Literals.builtins Sample.no_quantity = Ret q ∧
    price_of Literals.builtins Sample.no_quantity = Ret p ∧
    line_of Literals.builtins Sample.no_quantity 1 (of_Z 5) !! "quantity"
      = Some (PInt q) ∧
    line_of Literals.builtins Sample.no_quantity 1 (of_Z 5) !! "price"
      = Some (PFloat p) ∧
    line_of Literals.builtins Sample.no_quantity 1 (of_Z 5) !! "title"
      = Some (PStr "Item") ∧
    of_Z 5 = mul (of_Z q) p.
Proof.
  apply (accepted_line_normalized Literals.builtins Sample.no_quantity
           (line_of Literals.builtins Sample.no_quantity 1 (of_Z 5)) (of_Z 5)).
  vm_compute. reflexivity.
Defined.

Lemma persisted_subtotal_consistent_witness :
  ∃ s' doc lines amounts,
    (create_order Literals.builtins (Some Sample.fresh_store)
       (Sample.request [Sample.two_vip; Sample.no_quantity])).2 = Some s' ∧
    collection s' COLLECTION_ORDERS = [doc] ∧
    doc !! "items" = Some (PList (PDict <$> lines)) ∧
    mapM line_amount lines = Some amounts ∧
    doc !! "subtotal" = Some (PFloat (py_round (float_sum amounts) 2)).
Proof.
  apply (persisted_subtotal_consistent Literals.builtins Sample.fresh_store
           (Sample.request [Sample.two_vip; Sample.no_quantity])
           {| ok := true; order_id := "0" |}
           (create_order Literals.builtins (Some Sample.fresh_store)
              (Sample.request [Sample.two_vip; Sample.no_quantity])).2).
  vm_compute. reflexivity.
Defined.
